(** * StreamRecorder: the recording lifecycle of [recorder.py]

    A shallow embedding of the [StreamRecorder] class: credential
    embedding ([_build_auth_url]), the availability probe
    ([_is_rtsp_available]), the capture worker ([_record]), the
    [start]/[stop] lifecycle and the segment merge ([merge_segments]).

    The external world (the inspection tool, the capture pipeline, the
    concatenation tool, the clock) is an explicit environment [Env]; every
    observable action of the program (a printed line, a spawned process, a
    sleep, a file operation) is an [event] of the returned trace.

    Methods are computations in a monad [M] of state (the session object
    and the files), trace and exceptions.  The worker thread is run to its
    end at one point between [start()] and the return of [join()]; a
    capture process that never exits, and with it a [stop()] that never
    returns, is outside the model.  The file system holds regular files
    under their paths; strings are sequences of bytes, so that the order
    of [sorted] is the order of code units, and [lower], [strip] and
    [split] act on ASCII letters and white space.

    The second part embeds the client of [main.py], [Go2RTCClient]: its
    requests to the go2rtc API, whose server is an explicit [Net], and the
    registry of recorders that [start_recording] and [stop_recording]
    keep, over the same recorder class and the same files. *)

From Stdlib Require Import ZArith Lia Ascii DecimalString SpecFloat.
From stdpp Require Import gmap strings list sorting.

Local Open Scope Z_scope.

(** ** The parts of the Python library the class relies on *)

Module Py.

Definition nl : string := String "010"%char "".

(** [s.startswith(p)] *)
Definition startswith (s p : string) : bool := String.prefix p s.

(** [s.endswith(suf)] *)
Fixpoint endswith (s suf : string) : bool :=
  String.eqb s suf ||
  match s with
  | EmptyString => false
  | String _ s' => endswith s' suf
  end.

(** [sub in s] *)
Fixpoint contains (sub s : string) : bool :=
  String.prefix sub s ||
  match s with
  | EmptyString => false
  | String _ s' => contains sub s'
  end.

(** [s.replace(old, new)]: every non-overlapping occurrence, scanning from
    the left.  [skip] counts the characters of a matched occurrence that
    are still to be passed over. *)
Fixpoint replace_from (old new : string) (skip : nat) (s : string) : string :=
  match s with
  | EmptyString => EmptyString
  | String c s' =>
      match skip with
      | S k => replace_from old new k s'
      | O =>
          if String.prefix old s
          then new +:+ replace_from old new (Nat.pred (String.length old)) s'
          else String c (replace_from old new O s')
      end
  end.

Fixpoint intersperse (new s : string) : string :=
  match s with
  | EmptyString => new
  | String c s' => new +:+ String c (intersperse new s')
  end.

Definition replace (s old new : string) : string :=
  match old with
  | EmptyString => intersperse new s
  | String _ _ => replace_from old new O s
  end.

Definition lower_char (c : ascii) : ascii :=
  let n := Ascii.N_of_ascii c in
  if ((65 <=? n) && (n <=? 90))%N then Ascii.ascii_of_N (n + 32) else c.

(** [s.lower()] on the ASCII letters. *)
Fixpoint lower (s : string) : string :=
  match s with
  | EmptyString => EmptyString
  | String c s' => String (lower_char c) (lower s')
  end.

Fixpoint lstrip (s : string) : string :=
  match s with
  | EmptyString => EmptyString
  | String c s' => if Ascii.is_space c then lstrip s' else s
  end.

(** [s.strip()] *)
Definition strip (s : string) : string :=
  String.rev (lstrip (String.rev (lstrip s))).

(** [s.split()]: the words between runs of white space. *)
Definition split (s : string) : list string := String.words s.

(** [str(n)] for an integer. *)
Definition str_int (n : Z) : string := NilZero.string_of_int (Z.to_int n).

(** [str(l)] for a list of strings without quotes or escapes in them. *)
Fixpoint repr_items (l : list string) : string :=
  match l with
  | [] => ""
  | [x] => "'" +:+ x +:+ "'"
  | x :: l' => "'" +:+ x +:+ "', " +:+ repr_items l'
  end.
Definition str_list (l : list string) : string := "[" +:+ repr_items l +:+ "]".

(** [os.path.join(a, b)] (posixpath). *)
Definition path_join (a b : string) : string :=
  if startswith b "/" then b
  else if String.eqb a "" || endswith a "/" then a +:+ b
  else a +:+ "/" +:+ b.

(** [bool(x)] for an optional string: [None] and [''] are false. *)
Definition truthy (x : option string) : bool :=
  match x with
  | Some (String _ _) => true
  | _ => false
  end.

(** [sorted(l)] on strings: ascending, by code units. *)
Definition sorted (l : list string) : list string := merge_sort String.le l.

End Py.

(** ** Exceptions *)

(** The exceptions of class [Exception] that the library calls of the
    class raise; the two of [subprocess] that it names, and all others. *)
Inductive exn :=
| CalledProcessError (returncode : Z) (cmd : list string)
| TimeoutExpired (cmd : list string) (timeout : Z)
| OtherException (class message : string).

(** [str(e)]; the [subprocess] exceptions carry the command and the exit
    status, never the output of a child whose streams were not captured. *)
Definition str_exn (e : exn) : string :=
  match e with
  | CalledProcessError rc cmd =>
      if rc <? 0
      then "Command '" +:+ Py.str_list cmd +:+ "' died with signal "
             +:+ Py.str_int (- rc) +:+ "."
      else "Command '" +:+ Py.str_list cmd +:+ "' returned non-zero exit status "
             +:+ Py.str_int rc +:+ "."
  | TimeoutExpired cmd t =>
      "Command '" +:+ Py.str_list cmd +:+ "' timed out after "
        +:+ Py.str_int t +:+ " seconds"
  | OtherException _ msg => msg
  end.

(** ** Observable actions *)

Inductive event :=
| Print (text : string)
| PrintRaw (text : string)
| Makedirs (path : string)
| Run (cmd : list string) (timeout : option Z)
| Popen (cmd : list string)
| Wait
| Sleep (seconds : N)
| ThreadStart
| ThreadJoin
| ThreadDied (e : exn)
| OpenW (path : string)
| Write (path text : string)
| Remove (path : string).

Global Instance exn_eq_dec : EqDecision exn.
Proof. solve_decision. Defined.

Global Instance event_eq_dec : EqDecision event.
Proof. solve_decision. Defined.

(** ** The environment *)

(** What [subprocess.run(..., stdout=PIPE, stderr=PIPE, timeout=5)] gives:
    a completed process with its decoded streams, or an exception
    ([TimeoutExpired] on a timeout, anything else when the tool cannot be
    started or its output cannot be decoded). *)
Inductive run_result :=
| Completed (returncode : Z) (stdout stderr : string)
| RunRaises (e : exn).

(** What [Popen] followed by draining [stderr] and [wait()] gives: the
    lines the child wrote, its exit status and what its file sink left on
    disk, or an exception raised by the launch.  [wait()] returns the
    status; it raises for no status. *)
Inductive popen_result :=
| Exited (stderr_lines : list string) (returncode : Z) (recorded : option string)
| PopenRaises (e : exn).

(** What the concatenation tool does: it exits with a status, having
    written its diagnostics to the inherited [stderr] and, possibly, its
    output file; or it cannot be started at all. *)
Inductive concat_result :=
| ConcatExit (returncode : Z) (diagnostics : string) (written : option string)
| ConcatRaises (e : exn).

Record Env := {
  gst_discoverer : Z → run_result;
  now : string;
  gst_launch : popen_result;
  ffmpeg : concat_result
}.

(** ** The session object and the world *)

(** The worker thread behind [self.thread]. *)
Inductive Thread := Alive | Finished.

(** The fields of the object.  [retry_interval] is a duration in seconds,
    which [time.sleep] wants non-negative; [max_retries] is any integer,
    [range(1, max_retries + 1)] being empty below one. *)
Record StreamRecorder := {
  stream_url : string;
  output_dir : string;
  segment_time : Z;
  retry_interval : N;
  max_retries : Z;
  recording : bool;
  thread : option Thread;
  file_list_path : string
}.

(** The file system: regular files, path to content. *)
Record world := {
  self : StreamRecorder;
  files : gmap string string
}.

Definition set_recording (b : bool) (w : world) : world :=
  {| self := {| stream_url := stream_url (self w);
                output_dir := output_dir (self w);
                segment_time := segment_time (self w);
                retry_interval := retry_interval (self w);
                max_retries := max_retries (self w);
                recording := b;
                thread := thread (self w);
                file_list_path := file_list_path (self w) |};
     files := files w |}.

Definition set_thread (t : option Thread) (w : world) : world :=
  {| self := {| stream_url := stream_url (self w);
                output_dir := output_dir (self w);
                segment_time := segment_time (self w);
                retry_interval := retry_interval (self w);
                max_retries := max_retries (self w);
                recording := recording (self w);
                thread := t;
                file_list_path := file_list_path (self w) |};
     files := files w |}.

Definition set_files (fs : gmap string string) (w : world) : world :=
  {| self := self w; files := fs |}.

(** ** A state, trace and exception monad *)

Inductive outcome (A : Type) :=
| Returns (a : A)
| Raised (e : exn).
Arguments Returns {A} a.
Arguments Raised {A} e.

Definition M (A : Type) : Type := world → outcome A * world * list event.

Definition ret {A} (a : A) : M A := λ w, (Returns a, w, []).

Definition bind {A B} (m : M A) (k : A → M B) : M B :=
  λ w,
    match m w with
    | (Returns a, w1, t1) =>
        match k a w1 with
        | (r, w2, t2) => (r, w2, t1 ++ t2)
        end
    | (Raised e, w1, t1) => (Raised e, w1, t1)
    end.

Definition raise {A} (e : exn) : M A := λ w, (Raised e, w, []).

(** [try: body except <classes chosen by handler>: ...]; a [None] from
    [handler] lets the exception through. *)
Definition try_except {A} (body : M A) (handler : exn → option (M A)) : M A :=
  λ w,
    match body w with
    | (Returns a, w1, t1) => (Returns a, w1, t1)
    | (Raised e, w1, t1) =>
        match handler e with
        | Some h =>
            match h w1 with
            | (r, w2, t2) => (r, w2, t1 ++ t2)
            end
        | None => (Raised e, w1, t1)
        end
    end.

Definition emit (e : event) : M unit := λ w, (Returns tt, w, [e]).
Definition get : M world := λ w, (Returns w, w, []).
Definition modify (f : world → world) : M unit := λ w, (Returns tt, f w, []).

Notation "x <- m ;; k" := (bind m (λ x, k))
  (at level 100, m at next level, right associativity).
Notation "m ;;; k" := (bind m (λ _, k))
  (at level 100, right associativity).

Fixpoint for_each {A} (l : list A) (body : A → M unit) : M unit :=
  match l with
  | [] => ret tt
  | x :: l' => body x ;;; for_each l' body
  end.

Definition print (text : string) : M unit := emit (Print text).

(** The trace, the final world and the result of running [m] from [w]. *)
Definition trace_of {A} (m : M A) (w : world) : list event := (m w).2.
Definition world_of {A} (m : M A) (w : world) : world := (m w).1.2.
Definition result_of {A} (m : M A) (w : world) : outcome A := (m w).1.1.

(** ** The file system and process primitives *)

Fixpoint strip_prefix (p s : string) : option string :=
  match p, s with
  | EmptyString, _ => Some s
  | String a p', String b s' =>
      if Ascii.eqb a b then strip_prefix p' s' else None
  | String _ _, EmptyString => None
  end.

(** A file name: not empty, no separator in it. *)
Definition valid_name (n : string) : bool :=
  negb (String.eqb n "") && negb (Py.contains "/" n).

(** The name under which the file at path [p] is listed in directory [d],
    if it lies directly in [d]. *)
Definition entry_of (d p : string) : option string :=
  match strip_prefix (Py.path_join d "") p with
  | Some n => if valid_name n then Some n else None
  | None => None
  end.

(** [os.listdir(d)]: the names, in no particular order. *)
Definition listdir (d : string) : M (list string) :=
  λ w, (Returns (omap (entry_of d) (elements (dom (files w)))), w, []).

(** [open(path, "w")]: the file is created, or emptied. *)
Definition open_w (path : string) : M unit :=
  emit (OpenW path) ;;;
  modify (λ w, set_files (<[path := ""]> (files w)) w).

(** [f.write(text)] on the file opened at [path]. *)
Definition write (path text : string) : M unit :=
  emit (Write path text) ;;;
  modify (λ w, set_files
                 (<[path := default "" (files w !! path) +:+ text]> (files w)) w).

(** [os.remove(path)] *)
Definition os_remove (path : string) : M unit :=
  emit (Remove path) ;;;
  w <- get ;;
  match files w !! path with
  | Some _ => modify (λ w, set_files (delete path (files w)) w)
  | None => raise (OtherException "FileNotFoundError" path)
  end.

(** [subprocess.run(cmd, stdout=PIPE, stderr=PIPE, timeout=t)] *)
Definition subprocess_run (r : run_result) (cmd : list string) (t : Z)
  : M (Z * string * string) :=
  emit (Run cmd (Some t)) ;;;
  match r with
  | Completed rc out err => ret (rc, out, err)
  | RunRaises e => raise e
  end.

(** [subprocess.run(cmd, check=True)] for the concatenation tool, whose
    output file is [out]: a non-zero status becomes [CalledProcessError]. *)
Definition subprocess_run_check (r : concat_result) (cmd : list string)
    (out : string) : M unit :=
  emit (Run cmd None) ;;;
  match r with
  | ConcatExit rc _ written =>
      modify (λ w, match written with
                   | Some c => set_files (<[out := c]> (files w)) w
                   | None => w
                   end) ;;;
      if rc =? 0 then ret tt else raise (CalledProcessError rc cmd)
  | ConcatRaises e => raise e
  end.

(** [subprocess.Popen(cmd, stdout=PIPE, stderr=PIPE, text=True)] together
    with the lines later read from [process.stderr]; the file sink of the
    pipeline writes [sink]. *)
Definition subprocess_Popen (r : popen_result) (cmd : list string)
    (sink : string) : M (list string) :=
  emit (Popen cmd) ;;;
  match r with
  | Exited lines _ recorded =>
      modify (λ w, match recorded with
                   | Some c => set_files (<[sink := c]> (files w)) w
                   | None => w
                   end) ;;;
      ret lines
  | PopenRaises e => raise e
  end.

(** ** The class *)

Definition _build_auth_url (url : string) (username password : option string)
  : string * list event :=
  if Py.truthy username && Py.truthy password then
    let parsed_url :=
      Py.replace url "rtsp://"
        ("rtsp://" +:+ default "" username +:+ ":" +:+ default "" password +:+ "@") in
    (parsed_url, [Print ("🔐 Using authenticated RTSP URL: " +:+ parsed_url)])
  else (url, []).

Definition __init__ (url dir : string) (seg : Z) (interval : N) (retries : Z)
    (username password : option string) : StreamRecorder * list event :=
  let '(auth_url, t) := _build_auth_url url username password in
  ({| stream_url := auth_url;
      output_dir := dir;
      segment_time := seg;
      retry_interval := interval;
      max_retries := retries;
      recording := false;
      thread := None;
      file_list_path := Py.path_join dir "file_list.txt" |},
   t ++ [Makedirs dir]).

Definition inspect_command (s : StreamRecorder) : list string :=
  ["gst-discoverer-1.0"; stream_url s].

(** The test of a completed inspection. *)
Definition has_video (returncode : Z) (output : string) : bool :=
  (returncode =? 0) && Py.contains "video" (Py.lower output).

(** One pass of the body of the [for] loop; [true] stands for the
    [return True] inside it. *)
Definition probe_once (E : Env) (attempt : Z) : M bool :=
  w <- get ;;
  print ("⏳ Checking RTSP stream availability (Attempt "
           +:+ Py.str_int attempt +:+ "/"
           +:+ Py.str_int (max_retries (self w)) +:+ ")...") ;;;
  try_except
    (result <- subprocess_run (gst_discoverer E attempt)
                 (inspect_command (self w)) 5 ;;
     let '(returncode, stdout, stderr) := result in
     let output := Py.strip stdout in
     let error_output := Py.strip stderr in
     if has_video returncode output then
       print ("✅ RTSP stream is available! Details:" +:+ Py.nl +:+ output) ;;;
       ret true
     else
       print ("⚠️ RTSP stream might be empty. Output:" +:+ Py.nl +:+ output
                +:+ Py.nl +:+ "Errors:" +:+ Py.nl +:+ error_output) ;;;
       ret false)
    (λ e, match e with
          | TimeoutExpired _ _ =>
              Some (print "⏳ GStreamer discovery timed out. Retrying..." ;;;
                    ret false)
          | _ =>
              Some (print ("❌ Error checking RTSP stream: " +:+ str_exn e) ;;;
                    ret false)
          end).

Fixpoint probe_loop (E : Env) (attempts : list Z) : M bool :=
  match attempts with
  | [] =>
      print "🚨 RTSP stream did not become available. Aborting recording." ;;;
      ret false
  | attempt :: rest =>
      found <- probe_once E attempt ;;
      if found then ret true
      else
        w <- get ;;
        emit (Sleep (retry_interval (self w))) ;;;
        probe_loop E rest
  end.

Definition _is_rtsp_available (E : Env) : M bool :=
  w <- get ;;
  probe_loop E (seqZ 1 (max_retries (self w))).

Definition gst_command_str (url output_file : string) : string :=
  "gst-launch-1.0 rtspsrc location=" +:+ url +:+ " ! decodebin "
  +:+ "! videoconvert ! video/x-raw"
  +:+ "! x264enc tune=zerolatency speed-preset=ultrafast bitrate=2048 "
  +:+ "! h264parse "
  +:+ "! matroskamux "
  +:+ "! filesink location=" +:+ output_file +:+ " sync=1 async=1".

Definition recording_name (timestamp : string) : string :=
  "recording_" +:+ timestamp +:+ ".mkv".

Definition _record (E : Env) : M unit :=
  available <- _is_rtsp_available E ;;
  if negb available then ret tt
  else
    w <- get ;;
    let timestamp := now E in
    let output_file :=
      Py.path_join (output_dir (self w)) (recording_name timestamp) in
    let command := gst_command_str (stream_url (self w)) output_file in
    try_except
      (print ("🎥 Starting GStreamer recording with x264enc: " +:+ output_file) ;;;
       lines <- subprocess_Popen (gst_launch E) (Py.split command) output_file ;;
       for_each lines (λ line, emit (PrintRaw line)) ;;;
       emit Wait)
      (λ e, match e with
            | CalledProcessError _ _ =>
                Some (print ("❌ GStreamer error: " +:+ str_exn e) ;;;
                      modify (set_recording false))
            | _ => None
            end).

Definition start : M unit :=
  w <- get ;;
  if negb (recording (self w)) then
    print ("🎥 Waiting for RTSP stream to be available for "
             +:+ stream_url (self w)) ;;;
    modify (set_recording true) ;;;
    modify (set_thread (Some Alive)) ;;;
    emit ThreadStart
  else ret tt.

(** The worker thread running its target to the end; an exception
    that leaves [_record] ends the thread and goes no further. *)
Definition worker (E : Env) : M unit :=
  w <- get ;;
  match thread (self w) with
  | Some Alive =>
      try_except (_record E) (λ e, Some (emit (ThreadDied e))) ;;;
      modify (set_thread (Some Finished))
  | _ => ret tt
  end.

(** [self.thread.join()]: returns once the worker has ended. *)
Definition join (E : Env) : M unit :=
  worker E ;;;
  emit ThreadJoin.

Definition is_segment (file : string) : bool :=
  Py.startswith file "segment_" && Py.endswith file ".mp4".

Definition manifest_line (dir file : string) : string :=
  "file '" +:+ Py.path_join dir file +:+ "'" +:+ Py.nl.

Definition merged_output_of (s : StreamRecorder) : string :=
  Py.path_join (output_dir s) "final_recording.mp4".

Definition merge_command (s : StreamRecorder) : list string :=
  ["ffmpeg"; "-f"; "concat"; "-safe"; "0"; "-i"; file_list_path s;
   "-c"; "copy"; merged_output_of s].

(** The function has no [return]: its value is [None]. *)
Definition merge_segments (E : Env) : M (option string) :=
  print "🔄 Merging recorded segments into one file..." ;;;
  w <- get ;;
  let s := self w in
  open_w (file_list_path s) ;;;
  names <- listdir (output_dir s) ;;
  for_each (Py.sorted names)
    (λ file,
       if is_segment file
       then write (file_list_path s) (manifest_line (output_dir s) file)
       else ret tt) ;;;
  let merged_output := merged_output_of s in
  try_except
    (subprocess_run_check (ffmpeg E) (merge_command s) merged_output ;;;
     print ("✅ Merged recording saved: " +:+ merged_output) ;;;
     names <- listdir (output_dir s) ;;
     for_each (Py.sorted names)
       (λ file,
          if is_segment file
          then os_remove (Py.path_join (output_dir s) file)
          else ret tt))
    (λ e, match e with
          | CalledProcessError _ _ =>
              Some (print ("❌ Merging error: " +:+ str_exn e))
          | _ => None
          end) ;;;
  ret None.

Definition stop (E : Env) : M unit :=
  w <- get ;;
  if recording (self w) then
    print ("🛑 Stopping recording for " +:+ stream_url (self w)) ;;;
    modify (set_recording false) ;;;
    match thread (self w) with
    | Some _ => join E
    | None => ret tt
    end ;;;
    _ <- merge_segments E ;;
    ret tt
  else ret tt.

(** ** Vocabulary of the statements *)

(** A pass of the probe that does not find the stream: a status other
    than zero, no video indicator in the output, a timeout, or any other
    exception. *)
Definition attempt_fails (r : run_result) : bool :=
  match r with
  | Completed rc out _ => negb (has_video rc (Py.strip out))
  | RunRaises _ => true
  end.

Definition is_run (e : event) : bool :=
  match e with Run _ _ => true | _ => false end.

Definition is_sleep (e : event) : bool :=
  match e with Sleep _ => true | _ => false end.

Definition is_print (e : event) : bool :=
  match e with Print _ | PrintRaw _ => true | _ => false end.

Definition is_popen (e : event) : bool :=
  match e with Popen _ => true | _ => false end.



Definition is_thread_start (e : event) : bool :=
  match e with ThreadStart => true | _ => false end.

(** The line that the handler of [_record] prints. *)
Definition is_capture_error (e : event) : bool :=
  match e with
  | Print text => Py.startswith text "❌ GStreamer error: "
  | _ => false
  end.

(** The names listed in directory [d]. *)
Definition dir_entries (d : string) (fs : gmap string string) : list string :=
  omap (entry_of d) (elements (dom fs)).

(** The segment files of directory [d], in ascending order of name. *)
Definition segments (d : string) (fs : gmap string string) : list string :=
  List.filter is_segment (Py.sorted (dir_entries d fs)).

(** The text of the manifest for the segments [l]. *)
Definition manifest (d : string) (l : list string) : string :=
  foldr (λ file rest, manifest_line d file +:+ rest) "" l.

(** A session as the constructor leaves it: the manifest lies in the
    output directory. *)
Definition constructed (s : StreamRecorder) : Prop :=
  file_list_path s = Py.path_join (output_dir s) "file_list.txt".

(** The events of one failed pass of the probe that matter for counting. *)
Definition probe_round (s : StreamRecorder) : list event :=
  [Run (inspect_command s) (Some 5); Sleep (retry_interval s)].

(** The files left once the segments [segs] of directory [d] are removed,
    one after the other. *)
Definition remove_files (d : string) (segs : list string)
    (fs : gmap string string) : gmap string string :=
  foldl (λ fs n, delete (Py.path_join d n) fs) fs segs.

(** The files left by a tool that wrote [written], if anything, to [out]. *)
Definition written_by (written : option string) (out : string)
    (fs : gmap string string) : gmap string string :=
  match written with
  | Some c => <[out := c]> fs
  | None => fs
  end.

(** The trace of a merge up to and including the call of the
    concatenation tool. *)
Definition merge_prefix (s : StreamRecorder) (segs : list string) : list event :=
  [Print "🔄 Merging recorded segments into one file...";
   OpenW (file_list_path s)]
  ++ ((λ file, Write (file_list_path s) (manifest_line (output_dir s) file)) <$> segs)
  ++ [Run (merge_command s) None].

(** The text [diag] is part of some printed line of the trace. *)
Definition printed (diag : string) (t : list event) : bool :=
  existsb (λ e, match e with
                | Print text | PrintRaw text => Py.contains diag text
                | _ => false
                end) t.

(** ** Sample sessions and environments *)

Definition demo_session : StreamRecorder :=
  (__init__ "rtsp://host/path" "rec" 600 1%N 3 None None).1.

(** The inspection tool fails on every pass; the concatenation tool
    fails too. *)
Definition refusing : Env :=
  {| gst_discoverer := λ _, Completed 1 "" "Connection refused";
     now := "2024-05-01_12-00-00";
     gst_launch := Exited [] 0 None;
     ffmpeg := ConcatExit 1 "moov atom not found" None |}.

Definition demo_world : world :=
  {| self := demo_session;
     files := {[ "rec/segment_002.mp4" := "two";
                 "rec/segment_001.mp4" := "one";
                 "rec/segment_003.mp4" := "three";
                 "rec/recording_2024-05-01_11-00-00.mkv" := "stream" ]} |}.

(** The capture pipeline exits with status [rc] after a probe that found
    the stream. *)
Definition crashing (rc : Z) : Env :=
  {| gst_discoverer := λ _, Completed 0 "Topology: video: H.264" "";
     now := "2024-05-01_12-00-00";
     gst_launch := Exited ["ERROR: pipeline could not be constructed" +:+ Py.nl] rc None;
     ffmpeg := ConcatExit 0 "" (Some "merged") |}.

(** The stream is there and the concatenation tool succeeds. *)
Definition concatenating : Env :=
  {| gst_discoverer := λ _, Completed 0 "Topology: video: H.264" "";
     now := "2024-05-01_12-00-00";
     gst_launch := Exited [] 0 (Some "stream");
     ffmpeg := ConcatExit 0 "" (Some "merged") |}.


(** ** Vocabulary of the further properties *)

(** The fields that the constructor sets once and for all. *)
Definition config (s : StreamRecorder)
  : string * string * Z * N * Z * string :=
  (stream_url s, output_dir s, segment_time s, retry_interval s,
   max_retries s, file_list_path s).

(** The computation [m] takes every world to one related to it by [R],
    whether it returns or raises. *)
Definition keeps {A} (R : relation world) (m : M A) : Prop :=
  ∀ w, R w (world_of m w).

(** From [w] to [w'] the configuration is the same, and a recording flag
    that was clear is still clear. *)
Definition settles (w w' : world) : Prop :=
  config (self w') = config (self w)
  ∧ (recording (self w) = false → recording (self w') = false).



(** ** Further sample environments *)

(** The stream answers at the third pass of the probe, the letters of
    its output in upper case; the passes before it time out. *)
Definition answering_third : Env :=
  {| gst_discoverer := λ k, if k =? 3
                            then Completed 0 "Topology: VIDEO: H.264" ""
                            else RunRaises (TimeoutExpired [] 5);
     now := "2024-05-01_12-00-00";
     gst_launch := Exited ["a" +:+ Py.nl; "b" +:+ Py.nl] 0 (Some "stream");
     ffmpeg := ConcatExit 0 "" (Some "merged") |}.

(** A session that allows no attempt at all. *)
Definition never_retrying : world :=
  {| self := (__init__ "rtsp://host/path" "rec" 600 1%N 0 None None).1;
     files := ∅ |}.

(** Neither the capture tool nor the concatenation tool is installed. *)
Definition not_installed : Env :=
  {| gst_discoverer := λ _, Completed 0 "Topology: video: H.264" "";
     now := "2024-05-01_12-00-00";
     gst_launch := PopenRaises
                     (OtherException "FileNotFoundError"
                        "[Errno 2] No such file or directory: 'gst-launch-1.0'");
     ffmpeg := ConcatRaises
                 (OtherException "FileNotFoundError"
                    "[Errno 2] No such file or directory: 'ffmpeg'") |}.

(** * The go2rtc client ([main.py]) *)

(** ** The libraries of the client *)

Module Urllib.

(** The characters that [quote] never escapes: letters, digits and
    [_.-~]. *)
Definition is_unreserved (c : ascii) : bool :=
  let n := Ascii.N_of_ascii c in
  ((65 <=? n) && (n <=? 90) || (97 <=? n) && (n <=? 122)
   || (48 <=? n) && (n <=? 57))%N
  || bool_decide (c ∈ ["_"; "."; "-"; "~"]%char).

Definition hex_digit (n : N) : ascii :=
  Ascii.ascii_of_N (if (n <? 10)%N then 48 + n else 55 + n).

Definition quote_char (c : ascii) : string :=
  if is_unreserved c then String c ""
  else if Ascii.eqb c " " then "+"
  else
    let n := Ascii.N_of_ascii c in
    String "%" (String (hex_digit (n / 16)) (String (hex_digit (n mod 16)) "")).

(** [quote_plus(s)], byte by byte on the UTF-8 encoding of [s]. *)
Fixpoint quote_plus (s : string) : string :=
  match s with
  | EmptyString => EmptyString
  | String c s' => quote_char c +:+ quote_plus s'
  end.

(** [urlencode(query)] for a dict of strings, in insertion order. *)
Fixpoint urlencode (query : list (string * string)) : string :=
  match query with
  | [] => ""
  | [(k, v)] => quote_plus k +:+ "=" +:+ quote_plus v
  | (k, v) :: rest => quote_plus k +:+ "=" +:+ quote_plus v +:+ "&" +:+ urlencode rest
  end.

End Urllib.

(** The Python value of a JSON document, as [response.json()] returns
    it; the items of a dict in the order of the document. *)
#[warnings="-register-all"] Inductive value :=
| VNone
| VBool (b : bool)
| VInt (n : Z)
| VFloat (x : spec_float)
| VStr (s : string)
| VList (items : list value)
| VDict (items : list (string * value)).

(** [bool(v)] *)
Definition truth (v : value) : bool :=
  match v with
  | VNone => false
  | VBool b => b
  | VInt n => negb (n =? 0)
  | VFloat (S754_zero _) => false
  | VFloat _ => true
  | VStr s => negb (String.eqb s "")
  | VList items => negb (bool_decide (length items = 0%nat))
  | VDict items => negb (bool_decide (length items = 0%nat))
  end.

Module Requests.

(** What [response.json()] does: the parsed body, an exception of class
    [RequestException] (the [JSONDecodeError] of [requests]), or another
    exception. *)
Inductive json_result :=
| Parsed (v : value)
| JsonRequestException (message : string)
| JsonRaises (e : exn).

Record Response := {
  text : string;
  status_code : Z;
  reason : string;
  url : string;
  json : json_result
}.

(** What [requests.request(method, url)] does: a response, an exception
    of class [RequestException] with its [str()], or another exception. *)
Inductive http_result :=
| Responds (response : Response)
| RequestException (message : string)
| RequestRaises (e : exn).

(** [response.raise_for_status()]: the message of the [HTTPError], a
    [RequestException], that a status from 400 to 599 raises. *)
Definition raise_for_status (r : Response) : option string :=
  if (400 <=? status_code r) && (status_code r <? 500) then
    Some (Py.str_int (status_code r) +:+ " Client Error: " +:+ reason r
            +:+ " for url: " +:+ url r)
  else if (500 <=? status_code r) && (status_code r <? 600) then
    Some (Py.str_int (status_code r) +:+ " Server Error: " +:+ reason r
            +:+ " for url: " +:+ url r)
  else None.

End Requests.

(** The API server: its answer to a method and a URL. *)
Definition Net : Type := string → string → Requests.http_result.

(** ** The client object and its world *)

Module Go2RTCClient.

Record t := {
  base_url : string;
  recorders : gmap string StreamRecorder;
  output_dir : string
}.

Definition set_recorders (m : gmap string StreamRecorder) (c : t) : t :=
  {| base_url := base_url c; recorders := m; output_dir := output_dir c |}.

(** [Go2RTCClient(base_url, output_dir)] *)
Definition __init__ (base_url output_dir : string) : t :=
  {| base_url := base_url; recorders := ∅; output_dir := output_dir |}.

End Go2RTCClient.

Record state := {
  client : Go2RTCClient.t;
  fs : gmap string string
}.

(** What the client does: a request to the API, or an action of the
    recorder class or a [print]. *)
Inductive action :=
| Request (method url : string)
| Effect (e : event).

Global Instance action_eq_dec : EqDecision action.
Proof. solve_decision. Defined.

(** State, trace and exceptions, as for the recorder. *)
Definition C (A : Type) : Type := state → outcome A * state * list action.

Global Instance C_ret : MRet C := λ A a s, (Returns a, s, []).

Global Instance C_bind : MBind C :=
  λ A B k m s,
    match m s with
    | (Returns a, s1, t1) =>
        match k a s1 with
        | (r, s2, t2) => (r, s2, t1 ++ t2)
        end
    | (Raised e, s1, t1) => (Raised e, s1, t1)
    end.

Definition throw {A} (e : exn) : C A := λ s, (Raised e, s, []).
Definition act (a : action) : C unit := λ s, (Returns tt, s, [a]).
Definition say (text : string) : C unit := act (Effect (Print text)).
Definition acts (t : list event) : C unit := λ s, (Returns tt, s, Effect <$> t).
Definition get_state : C state := λ s, (Returns s, s, []).
Definition update (f : Go2RTCClient.t → Go2RTCClient.t) : C unit :=
  λ s, (Returns tt, {| client := f (client s); fs := fs s |}, []).

(** A method [m] of the recorder object [r] that the dict holds under
    [name]: it runs on that object and the shared file system; what it
    does to the object is seen through the dict, also when it raises. *)
Definition call {A} (name : string) (r : StreamRecorder) (m : M A) : C A :=
  λ s,
    match m {| self := r; files := fs s |} with
    | (res, w, t) =>
        (res,
         {| client := Go2RTCClient.set_recorders
                        (<[name := self w]> (Go2RTCClient.recorders (client s)))
                        (client s);
            fs := files w |},
         Effect <$> t)
    end.

(** ** The methods *)

Definition api_error (method endpoint message : string) : C value :=
  say ("❌ API error on " +:+ method +:+ " request to " +:+ endpoint +:+ ": "
         +:+ message);;
  mret (VDict []).

Definition _send_request (N : Net) (method endpoint : string)
    (params : option (list (string * string))) : C value :=
  s ← get_state;
  let url := Go2RTCClient.base_url (client s) +:+ endpoint in
  let url := match params with
             | Some ((_ :: _) as query) => url +:+ "?" +:+ Urllib.urlencode query
             | _ => url
             end in
  act (Request method url);;
  match N method url with
  | Requests.Responds response =>
      if String.eqb (Py.strip (Requests.text response)) "" then
        say ("✅ " +:+ method +:+ " request to " +:+ endpoint
               +:+ " completed successfully.");;
        mret (VDict [])
      else
        match Requests.raise_for_status response with
        | Some message => api_error method endpoint message
        | None =>
            match Requests.json response with
            | Requests.Parsed v => mret v
            | Requests.JsonRequestException message =>
                api_error method endpoint message
            | Requests.JsonRaises e => throw e
            end
        end
  | Requests.RequestException message => api_error method endpoint message
  | Requests.RequestRaises e => throw e
  end.

Definition list_streams (N : Net) : C value :=
  _send_request N "GET" "/api/streams" None.

Definition start_recording (stream_name : string) : C unit :=
  s ← get_state;
  match Go2RTCClient.recorders (client s) !! stream_name with
  | None =>
      let stream_url := "rtsp://localhost:8554/" +:+ stream_name in
      say ("🎬 Starting recording for " +:+ stream_name +:+ " at " +:+ stream_url);;
      let '(recorder, t) :=
        __init__ stream_url (Go2RTCClient.output_dir (client s)) 600 1 30
          None None in
      acts t;;
      update (Go2RTCClient.set_recorders
                (<[stream_name := recorder]> (Go2RTCClient.recorders (client s))));;
      call stream_name recorder start
  | Some _ => say ("⚠️ Recording already running for " +:+ stream_name)
  end.

Definition stop_recording (E : Env) (stream_name : string) : C unit :=
  s ← get_state;
  match Go2RTCClient.recorders (client s) !! stream_name with
  | Some recorder =>
      say ("🛑 Stopping recording for " +:+ stream_name);;
      call stream_name recorder (stop E);;
      update (λ c, Go2RTCClient.set_recorders
                     (delete stream_name (Go2RTCClient.recorders c)) c)
  | None => say ("⚠️ No recording found for " +:+ stream_name)
  end.

Definition add_stream (N : Net) (name src : string) : C value :=
  result ← _send_request N "PUT" "/api/streams"
             (Some [("name", name); ("src", src)]);
  start_recording name;;
  mret result.

Definition update_stream (N : Net) (name src : string) : C value :=
  _send_request N "PUT" "/api/streams" (Some [("name", name); ("src", src)]).

Definition delete_stream (N : Net) (E : Env) (src : string) : C value :=
  result ← _send_request N "DELETE" "/api/streams" (Some [("src", src)]);
  (if truth result then stop_recording E src else mret tt);;
  mret result.

(** Every recorder of the dict is the one [start_recording] makes for
    its key, up to the recording flag and the thread. *)
Definition registered (s : state) : Prop :=
  map_Forall
    (λ name r,
       config r
       = ("rtsp://localhost:8554/" +:+ name, Go2RTCClient.output_dir (client s),
          600, 1%N, 30,
          Py.path_join (Go2RTCClient.output_dir (client s)) "file_list.txt"))
    (Go2RTCClient.recorders (client s)).

(** The recorder that [start_recording] leaves under [name] in a client
    whose recordings go to [dir]. *)
Definition started (name dir : string) : StreamRecorder :=
  {| stream_url := "rtsp://localhost:8554/" +:+ name;
     output_dir := dir;
     segment_time := 600;
     retry_interval := 1;
     max_retries := 30;
     recording := true;
     thread := Some Alive;
     file_list_path := Py.path_join dir "file_list.txt" |}.

(** The URL of a request about streams. *)
Definition streams_url (c : Go2RTCClient.t) (query : list (string * string))
  : string :=
  (Go2RTCClient.base_url c +:+ "/api/streams") +:+ "?" +:+ Urllib.urlencode query.

(** A server that cannot be reached. *)
Definition unreachable : Net :=
  λ _ _, Requests.RequestException "Connection refused".

(** A server that answers every request with status 200 and the body
    [body], parsed as [v]. *)
Definition answering (body : string) (v : value) : Net :=
  λ _ url, Requests.Responds
             {| Requests.text := body; Requests.status_code := 200;
                Requests.reason := "OK"; Requests.url := url;
                Requests.json := Requests.Parsed v |}.

(** A fresh client on the files of [demo_world]. *)
Definition demo_client : state :=
  {| client := Go2RTCClient.__init__ "http://localhost:1984" "rec";
     fs := files demo_world |}.

(** * Properties *)

(** ** Strings *)

Lemma string_app_cons c s1 s2 : String c s1 +:+ s2 = String c (s1 +:+ s2).
Proof. reflexivity. Qed.

Lemma string_app_nil_l s : "" +:+ s = s.
Proof. reflexivity. Qed.

Lemma string_app_nil_r s : s +:+ "" = s.
Proof. induction s as [|c s IH]; [done|]. by rewrite string_app_cons, IH. Qed.

Lemma string_app_assoc s1 s2 s3 : (s1 +:+ s2) +:+ s3 = s1 +:+ s2 +:+ s3.
Proof.
  induction s1 as [|c s1 IH]; [done|]. by rewrite !string_app_cons, IH.
Qed.

Lemma prefix_app p s : String.prefix p (p +:+ s) = true.
Proof.
  induction p as [|c p IH]; [by destruct s|].
  rewrite string_app_cons. simpl. destruct (ascii_dec c c); [done|congruence].
Qed.

Lemma replace_from_absent old new s :
  Py.contains old s = false → Py.replace_from old new O s = s.
Proof.
  induction s as [|c s IH]; [done|]. intros H.
  cbn [Py.contains] in H. apply orb_false_iff in H as [Hp Hc].
  cbn [Py.replace_from]. rewrite Hp. by rewrite IH.
Qed.

Lemma replace_from_skip old new pre s :
  Py.replace_from old new (String.length pre) (pre +:+ s)
  = Py.replace_from old new O s.
Proof.
  induction pre as [|c pre IH]; [by destruct s|].
  by rewrite string_app_cons.
Qed.

Lemma replace_leading old new rest :
  old ≠ "" → Py.contains old rest = false →
  Py.replace (old +:+ rest) old new = new +:+ rest.
Proof.
  intros Hne Habs. destruct old as [|c old]; [done|].
  unfold Py.replace. rewrite string_app_cons. cbn [Py.replace_from].
  rewrite <- string_app_cons, prefix_app. cbn [String.length Nat.pred].
  by rewrite replace_from_skip, replace_from_absent.
Qed.

(** ** Lists *)

Lemma elem_of_bfilter {A} (f : A → bool) (l : list A) x :
  x ∈ List.filter f l ↔ x ∈ l ∧ f x = true.
Proof. rewrite !list_elem_of_In. apply List.filter_In. Qed.

Lemma NoDup_bfilter {A} (f : A → bool) (l : list A) :
  NoDup l → NoDup (List.filter f l).
Proof.
  induction 1 as [|x l Hx Hl IH]; cbn; [constructor|].
  destruct (f x); [|done]. constructor; [|done].
  rewrite elem_of_bfilter. tauto.
Qed.

Lemma StronglySorted_bfilter {A} (R : relation A) (f : A → bool) (l : list A) :
  StronglySorted R l → StronglySorted R (List.filter f l).
Proof.
  induction 1 as [|x l Hl IH Hx]; cbn; [constructor|].
  destruct (f x); [|done]. constructor; [done|].
  apply Forall_forall. intros y Hy%elem_of_bfilter.
  rewrite Forall_forall in Hx. apply Hx, Hy.
Qed.

Lemma NoDup_omap_inj {A B} (f : A → option B) (l : list A) :
  (∀ x y z, f x = Some z → f y = Some z → x = y) →
  NoDup l → NoDup (omap f l).
Proof.
  intros Hinj. induction 1 as [|x l Hx Hl IH]; cbn; [constructor|].
  destruct (f x) as [z|] eqn:Hfx; [|done]. constructor; [|done].
  intros (y & Hy & Hfy)%list_elem_of_omap.
  by rewrite (Hinj x y z Hfx Hfy) in Hx.
Qed.


Lemma bfilter_fmap_false {A B} (f : B → bool) (g : A → B) (l : list A) :
  (∀ x, f (g x) = false) → List.filter f (g <$> l) = [].
Proof.
  intros H. induction l as [|x l IH]; [done|].
  cbn. by rewrite H, IH.
Qed.

(** ** Credentials *)

(** C9: when the user name or the password is [None] or empty, the URL
    comes back unchanged (and nothing is printed). *)
Theorem build_auth_url_needs_both (url : string) (username password : option string) :
  username = None ∨ username = Some "" ∨ password = None ∨ password = Some "" →
  _build_auth_url url username password = (url, []).
Proof.
  intros H. unfold _build_auth_url.
  assert (Py.truthy username && Py.truthy password = false) as ->; [|done].
  destruct H as [-> | [-> | [-> | ->]]]; simpl; try done;
    by rewrite andb_false_r.
Qed.

Lemma build_auth_url_needs_both_witness :
  _build_auth_url "rtsp://host/path" (Some "admin") (Some "") = ("rtsp://host/path", []).
Proof. apply build_auth_url_needs_both. right; right; right. reflexivity. Defined.

(** C8: with a user name [u] and a password [p], both supplied, the URL
    [rtsp://host/path] becomes [rtsp://u:p@host/path]; with no
    credentials the URL is unchanged.  The first part is shown for every
    non-empty [u] and [p] and every remainder [rest] of the URL that holds
    no further [rtsp://]. *)
Theorem build_auth_url_embeds (rest u p : string) :
  u ≠ "" → p ≠ "" → Py.contains "rtsp://" rest = false →
  (_build_auth_url ("rtsp://" +:+ rest) (Some u) (Some p)).1
    = "rtsp://" +:+ u +:+ ":" +:+ p +:+ "@" +:+ rest
  ∧ ∀ url, (_build_auth_url url None None).1 = url.
Proof.
  intros Hu Hp Hrest. split; [|done].
  unfold _build_auth_url.
  destruct u as [|cu u]; [done|]. destruct p as [|cp p]; [done|].
  cbn [Py.truthy andb fst default].
  rewrite replace_leading by done.
  by rewrite !string_app_assoc.
Qed.

Lemma build_auth_url_embeds_witness :
  (_build_auth_url "rtsp://host/path" (Some "u") (Some "p")).1
    = "rtsp://u:p@host/path"
  ∧ ∀ url, (_build_auth_url url None None).1 = url.
Proof. apply (build_auth_url_embeds "host/path" "u" "p"); done. Defined.

(** [str.replace] rewrites every occurrence: a URL that holds a second
    [rtsp://] gets the credentials twice. *)
Example build_auth_url_nested :
  (_build_auth_url "rtsp://proxy/rtsp://camera" (Some "u") (Some "p")).1
  = "rtsp://u:p@proxy/rtsp://u:p@camera".
Proof. reflexivity. Qed.

(** ** The monad *)

Ltac run_m :=
  unfold bind, ret, raise, get, modify, print, try_except; cbn.

(** ** The availability probe *)

Lemma probe_once_fails E k w :
  attempt_fails (gst_discoverer E k) = true →
  ∃ p1 p2, probe_once E k w
           = (Returns false, w,
              [Print p1; Run (inspect_command (self w)) (Some 5); Print p2]).
Proof.
  intros Hf. unfold probe_once, subprocess_run.
  destruct (gst_discoverer E k) as [rc out err|e]; cbn in Hf.
  - apply negb_true_iff in Hf. run_m. rewrite Hf. cbn. eauto.
  - destruct e; run_m; eauto.
Qed.

Lemma probe_loop_all_fail E w attempts :
  (∀ k, k ∈ attempts → attempt_fails (gst_discoverer E k) = true) →
  ∃ t, probe_loop E attempts w = (Returns false, w, t)
       ∧ List.filter (λ e, is_run e || is_sleep e) t
         = mjoin (replicate (length attempts) (probe_round (self w)))
       ∧ List.filter is_popen t = [].
Proof.
  induction attempts as [|k rest IH]; intros Hall.
  - eexists. split; [reflexivity|]. done.
  - destruct (probe_once_fails E k w) as (p1 & p2 & H1).
    { apply Hall. left. }
    destruct IH as (t & Hloop & Hfilter & Hpop).
    { intros k' Hk'. apply Hall. by right. }
    cbn [probe_loop]. unfold bind at 1. rewrite H1.
    run_m. rewrite Hloop. eexists. split; [reflexivity|].
    cbn. rewrite Hfilter, Hpop. done.
Qed.

Lemma probe_once_total E k w :
  ∃ b t, probe_once E k w = (Returns b, w, t)
         ∧ List.filter is_popen t = []
         ∧ List.filter is_capture_error t = [].
Proof.
  unfold probe_once, subprocess_run.
  destruct (gst_discoverer E k) as [rc out err|e].
  - run_m. destruct (has_video rc (Py.strip out)); cbn; eauto.
  - destruct e; run_m; eauto.
Qed.

Lemma probe_loop_total E attempts w :
  ∃ b t, probe_loop E attempts w = (Returns b, w, t)
         ∧ List.filter is_popen t = []
         ∧ List.filter is_capture_error t = [].
Proof.
  induction attempts as [|k rest IH].
  - run_m. eauto.
  - destruct (probe_once_total E k w) as (b & t & H1 & Hp1 & Hc1).
    destruct IH as (b' & t' & Hloop & Hp' & Hc').
    cbn [probe_loop]. unfold bind at 1. rewrite H1. destruct b.
    + run_m. rewrite app_nil_r. eauto.
    + run_m. rewrite Hloop. do 2 eexists. split; [reflexivity|].
      rewrite !List.filter_app. cbn. by rewrite Hp1, Hp', Hc1, Hc'.
Qed.

Lemma is_rtsp_available_total E w :
  ∃ b t, _is_rtsp_available E w = (Returns b, w, t)
         ∧ List.filter is_popen t = []
         ∧ List.filter is_capture_error t = [].
Proof.
  destruct (probe_loop_total E (seqZ 1 (max_retries (self w))) w)
    as (b & t & H & Hp).
  unfold _is_rtsp_available. run_m. rewrite H. eauto.
Qed.

(** C7: with [max_retries = N] and every pass of the probe failing (a
    status other than zero, no video indicator, a timeout or any other
    exception), the probe runs the inspection tool exactly [N] times, sleeps
    [retry_interval] after each of them, hence between any two, and returns
    [False]; no exception leaves the loop. *)
Theorem probe_exhausts_retries (E : Env) (w : world) (N : nat) :
  max_retries (self w) = Z.of_nat N →
  (∀ k, 1 ≤ k ≤ Z.of_nat N → attempt_fails (gst_discoverer E k) = true) →
  result_of (_is_rtsp_available E) w = Returns false
  ∧ world_of (_is_rtsp_available E) w = w
  ∧ List.filter (λ e, is_run e || is_sleep e) (trace_of (_is_rtsp_available E) w)
    = mjoin (replicate N (probe_round (self w)))
  ∧ length (List.filter is_run (trace_of (_is_rtsp_available E) w)) = N
  ∧ ∀ E' w', ∃ b, result_of (_is_rtsp_available E') w' = Returns b.
Proof.
  intros HN Hall.
  assert (Htotal : ∀ E' w', ∃ b, result_of (_is_rtsp_available E') w' = Returns b).
  { intros E' w'. destruct (is_rtsp_available_total E' w') as (b & t' & H' & _ & _).
    exists b. unfold result_of. by rewrite H'. }
  revert Htotal. generalize (∀ E' w', ∃ b, result_of (_is_rtsp_available E') w' = Returns b).
  intros Total Htotal.
  destruct (probe_loop_all_fail E w (seqZ 1 (Z.of_nat N))) as (t & Hrun & Hfilter & _).
  { intros k Hk. apply elem_of_seqZ in Hk. apply Hall. lia. }
  unfold result_of, world_of, trace_of, _is_rtsp_available.
  run_m. rewrite HN, Hrun. cbn.
  rewrite length_seqZ, Nat2Z.id in Hfilter.
  split; [done|]. split; [done|]. split; [done|]. split; [|done].
  assert (List.filter is_run t
          = List.filter is_run (List.filter (λ e, is_run e || is_sleep e) t)) as ->.
  { clear. induction t as [|e t IH]; [done|].
    cbn. destruct e; cbn; by rewrite ?IH. }
  rewrite Hfilter. clear. induction N as [|N IH]; [done|].
  rewrite replicate_S. cbn [mjoin list_join probe_round app List.filter is_run is_sleep orb length].
  by f_equal.
Qed.

Lemma probe_exhausts_retries_witness :
  result_of (_is_rtsp_available refusing) demo_world = Returns false
  ∧ world_of (_is_rtsp_available refusing) demo_world = demo_world
  ∧ List.filter (λ e, is_run e || is_sleep e)
      (trace_of (_is_rtsp_available refusing) demo_world)
    = mjoin (replicate 3 (probe_round demo_session))
  ∧ length (List.filter is_run (trace_of (_is_rtsp_available refusing) demo_world)) = 3%nat
  ∧ ∀ E' w', ∃ b, result_of (_is_rtsp_available E') w' = Returns b.
Proof.
  apply (probe_exhausts_retries refusing demo_world 3).
  - reflexivity.
  - intros k _. reflexivity.
Defined.

(** ** The worker *)

Lemma for_each_emit {A} (f : A → event) (l : list A) w :
  for_each l (λ x, emit (f x)) w = (Returns tt, w, f <$> l).
Proof.
  induction l as [|x l IH]; [done|].
  cbn [for_each]. unfold bind, emit at 1. by rewrite IH.
Qed.

Lemma record_after_failed_probe E w N :
  max_retries (self w) = Z.of_nat N →
  (∀ k, 1 ≤ k ≤ Z.of_nat N → attempt_fails (gst_discoverer E k) = true) →
  ∃ t, _record E w = (Returns tt, w, t) ∧ List.filter is_popen t = [].
Proof.
  intros HN Hall.
  destruct (probe_loop_all_fail E w (seqZ 1 (Z.of_nat N))) as (t & Hrun & _ & Hp).
  { intros k Hk. apply elem_of_seqZ in Hk. apply Hall. lia. }
  unfold _record, _is_rtsp_available. run_m. rewrite HN, Hrun. cbn.
  rewrite app_nil_r. eauto.
Qed.



(** ** The lifecycle *)

Lemma start_when_idle w :
  recording (self w) = false →
  start w = (Returns tt, set_thread (Some Alive) (set_recording true w),
             [Print ("🎥 Waiting for RTSP stream to be available for "
                       +:+ stream_url (self w)); ThreadStart]).
Proof. intros H. unfold start. run_m. by rewrite H. Qed.


Lemma stop_when_idle E w :
  recording (self w) = false → stop E w = (Returns tt, w, []).
Proof. intros H. unfold stop. run_m. by rewrite H. Qed.




(** C1, as amended: from a session that is not recording, when every
    pass of the probe fails, [start()] and its worker never launch the
    capture pipeline and leave the files alone; and a [stop()] on a session
    whose recording flag is clear does nothing at all: no line printed, no
    process, no merge. *)
Theorem failed_probe_never_captures (E : Env) (w : world) (N : nat) :
  recording (self w) = false →
  max_retries (self w) = Z.of_nat N →
  (∀ k, 1 ≤ k ≤ Z.of_nat N → attempt_fails (gst_discoverer E k) = true) →
  result_of (start ;;; worker E) w = Returns tt
  ∧ List.filter is_popen (trace_of (start ;;; worker E) w) = []
  ∧ files (world_of (start ;;; worker E) w) = files w
  ∧ ∀ E' w', recording (self w') = false → stop E' w' = (Returns tt, w', []).
Proof.
  intros Hidle HN Hall.
  destruct (record_after_failed_probe E
              (set_thread (Some Alive) (set_recording true w)) N HN Hall)
    as (t & Hrec & Hpop).
  unfold result_of, trace_of, world_of, bind.
  rewrite (start_when_idle w Hidle). unfold worker. run_m.
  rewrite Hrec. cbn. rewrite app_nil_r, Hpop.
  repeat split. intros E' w'. apply stop_when_idle.
Qed.

Lemma failed_probe_never_captures_witness :
  result_of (start ;;; worker refusing) demo_world = Returns tt
  ∧ List.filter is_popen (trace_of (start ;;; worker refusing) demo_world) = []
  ∧ files (world_of (start ;;; worker refusing) demo_world) = files demo_world
  ∧ ∀ E' w', recording (self w') = false → stop E' w' = (Returns tt, w', []).
Proof.
  apply (failed_probe_never_captures refusing demo_world 3).
  - reflexivity.
  - reflexivity.
  - intros k _. reflexivity.
Defined.

(** C1, as stated, fails: after a probe that failed on every pass the
    recording flag is still set, and the [stop()] that follows prints its
    stop line, no warning, and runs the merge, concatenation tool
    included. *)
Lemma stop_after_failed_probe_merges :
  let w1 := world_of (start ;;; worker refusing) demo_world in
  recording (self w1) = true
  ∧ trace_of (stop refusing) w1
    = [Print "🛑 Stopping recording for rtsp://host/path";
       ThreadJoin;
       Print "🔄 Merging recorded segments into one file...";
       OpenW "rec/file_list.txt";
       Write "rec/file_list.txt" ("file 'rec/segment_001.mp4'" +:+ Py.nl);
       Write "rec/file_list.txt" ("file 'rec/segment_002.mp4'" +:+ Py.nl);
       Write "rec/file_list.txt" ("file 'rec/segment_003.mp4'" +:+ Py.nl);
       Run ["ffmpeg"; "-f"; "concat"; "-safe"; "0"; "-i"; "rec/file_list.txt";
            "-c"; "copy"; "rec/final_recording.mp4"] None;
       Print ("❌ Merging error: Command '['ffmpeg', '-f', 'concat', '-safe', "
              +:+ "'0', '-i', 'rec/file_list.txt', '-c', 'copy', "
              +:+ "'rec/final_recording.mp4']' returned non-zero exit status 1.")].
Proof. vm_compute. done. Qed.

(** Whatever the probe finds and whatever the exit status [rc] of the
    capture pipeline, [_record] leaves every field of the session as it
    was, the recording flag with them, prints no capture error and starts
    the pipeline at most once. *)
Lemma record_ignores_exit_status (disc : Z → run_result) (ts : string)
    (lines : list string) (rc : Z) (rec : option string) (tool : concat_result)
    (w : world) :
  let E := {| gst_discoverer := disc; now := ts;
              gst_launch := Exited lines rc rec; ffmpeg := tool |} in
  result_of (_record E) w = Returns tt
  ∧ self (world_of (_record E) w) = self w
  ∧ List.filter is_capture_error (trace_of (_record E) w) = []
  ∧ (length (List.filter is_popen (trace_of (_record E) w)) ≤ 1)%nat.
Proof.
  intros E. destruct (is_rtsp_available_total E w) as (b & t & H & Hp & Hc).
  assert (∃ w' t', _record E w = (Returns tt, w', t')
                   ∧ self w' = self w
                   ∧ List.filter is_capture_error t' = []
                   ∧ (length (List.filter is_popen t') ≤ 1)%nat)
    as (w' & t' & Hrec & Hself & Herr & Hpop).
  { unfold _record. unfold bind at 1. rewrite H. destruct b.
    - unfold subprocess_Popen. run_m. rewrite for_each_emit.
      do 2 eexists. split; [reflexivity|]. split; [by destruct rec|].
      rewrite !List.filter_app, Hp, Hc. cbn.
      rewrite !List.filter_app, !bfilter_fmap_false by done. auto.
    - run_m. do 2 eexists. split; [reflexivity|].
      rewrite app_nil_r, Hp, Hc. auto. }
  unfold result_of, world_of, trace_of. by rewrite Hrec.
Qed.

(** C3 fails on the code: whatever the exit status [rc] of the capture
    pipeline, [1] for one, the worker runs it once, prints its lines and
    nothing about a failure, and leaves the recording flag set. *)
Theorem capture_exit_status_ignored (rc : Z) :
  let w1 := world_of start demo_world in
  result_of (worker (crashing rc)) w1 = Returns tt
  ∧ recording (self (world_of (worker (crashing rc)) w1)) = true
  ∧ List.filter (λ e, is_print e || is_popen e) (trace_of (worker (crashing rc)) w1)
    = [Print "⏳ Checking RTSP stream availability (Attempt 1/3)...";
       Print ("✅ RTSP stream is available! Details:" +:+ Py.nl
              +:+ "Topology: video: H.264");
       Print ("🎥 Starting GStreamer recording with x264enc: "
              +:+ "rec/recording_2024-05-01_12-00-00.mkv");
       Popen (Py.split (gst_command_str "rtsp://host/path"
                          "rec/recording_2024-05-01_12-00-00.mkv"));
       PrintRaw ("ERROR: pipeline could not be constructed" +:+ Py.nl)].
Proof. vm_compute. done. Qed.

(** ** Paths and directory listings *)

Lemma strip_prefix_Some p s r : strip_prefix p s = Some r ↔ s = p +:+ r.
Proof.
  revert s. induction p as [|a p IH]; intros s; cbn.
  - rewrite string_app_nil_l. split; congruence.
  - destruct s as [|b s]; [done|]. rewrite string_app_cons.
    destruct (Ascii.eqb_spec a b) as [->|Hne].
    + rewrite IH. split; congruence.
    + split; [done|]. congruence.
Qed.

Lemma valid_name_no_slash n :
  valid_name n = true → n ≠ "" ∧ Py.startswith n "/" = false.
Proof.
  unfold valid_name. intros [Hne Hsl]%andb_true_iff.
  apply negb_true_iff in Hne, Hsl. split.
  - intros ->. done.
  - destruct n as [|c n]; [done|]. cbn [Py.contains] in Hsl.
    by apply orb_false_iff in Hsl as [? _].
Qed.

Lemma path_join_valid d n :
  valid_name n = true → Py.path_join d n = Py.path_join d "" +:+ n.
Proof.
  intros [_ Hsl]%valid_name_no_slash. unfold Py.path_join. rewrite Hsl.
  cbn [Py.startswith String.prefix].
  destruct (String.eqb d "" || Py.endswith d "/").
  - by rewrite string_app_nil_r.
  - by rewrite !string_app_assoc.
Qed.

Lemma path_join_inj d n1 n2 :
  valid_name n1 = true → valid_name n2 = true →
  Py.path_join d n1 = Py.path_join d n2 → n1 = n2.
Proof.
  intros H1 H2. rewrite (path_join_valid d n1), (path_join_valid d n2) by done.
  apply String.app_inj.
Qed.

Lemma entry_of_Some d p n :
  entry_of d p = Some n ↔ valid_name n = true ∧ p = Py.path_join d n.
Proof.
  unfold entry_of. split.
  - destruct (strip_prefix _ p) as [r|] eqn:Hr; [|done].
    destruct (valid_name r) eqn:Hv; [|done]. intros [= <-].
    apply strip_prefix_Some in Hr. split; [done|].
    by rewrite (path_join_valid d r).
  - intros [Hv ->]. rewrite (path_join_valid d n) by done.
    assert (strip_prefix (Py.path_join d "") (Py.path_join d "" +:+ n) = Some n)
      as -> by by apply strip_prefix_Some.
    by rewrite Hv.
Qed.

Lemma elem_of_dir_entries d fs n :
  n ∈ dir_entries d fs ↔ valid_name n = true ∧ is_Some (fs !! Py.path_join d n).
Proof.
  unfold dir_entries. rewrite list_elem_of_omap. split.
  - intros (p & Hp & [Hv ->]%entry_of_Some).
    by apply elem_of_elements, elem_of_dom in Hp.
  - intros [Hv Hin]. exists (Py.path_join d n). split.
    + by apply elem_of_elements, elem_of_dom.
    + by apply entry_of_Some.
Qed.

Lemma NoDup_dir_entries d fs : NoDup (dir_entries d fs).
Proof.
  apply NoDup_omap_inj; [|apply NoDup_elements].
  intros p1 p2 n [_ ->]%entry_of_Some [_ ->]%entry_of_Some. done.
Qed.

Lemma elem_of_segments d fs n :
  n ∈ segments d fs
  ↔ is_segment n = true ∧ valid_name n = true ∧ is_Some (fs !! Py.path_join d n).
Proof.
  unfold segments, Py.sorted.
  rewrite elem_of_bfilter, merge_sort_Permutation, elem_of_dir_entries. tauto.
Qed.

Lemma NoDup_segments d fs : NoDup (segments d fs).
Proof.
  apply NoDup_bfilter. unfold Py.sorted.
  rewrite merge_sort_Permutation. apply NoDup_dir_entries.
Qed.

Lemma StronglySorted_segments d fs : StronglySorted String.le (segments d fs).
Proof.
  apply StronglySorted_bfilter, StronglySorted_merge_sort; apply _.
Qed.

(** Two listings with the same segment files give the same list. *)
Lemma segments_ext d fs1 fs2 :
  (∀ n, is_segment n = true → valid_name n = true →
        (is_Some (fs1 !! Py.path_join d n) ↔ is_Some (fs2 !! Py.path_join d n))) →
  segments d fs1 = segments d fs2.
Proof.
  intros H. apply (StronglySorted_unique String.le);
    [apply StronglySorted_segments..|].
  apply NoDup_Permutation; [apply NoDup_segments..|].
  intros n. rewrite !elem_of_segments.
  split; intros (Hseg & Hv & Hin); (split; [done|split; [done|]]);
    by apply (H n Hseg Hv).
Qed.

Lemma segments_insert d fs p c :
  (∀ n, entry_of d p = Some n → is_segment n = false) →
  segments d (<[p := c]> fs) = segments d fs.
Proof.
  intros Hp. apply segments_ext. intros n Hseg Hv.
  destruct (decide (p = Py.path_join d n)) as [->|Hne].
  - rewrite (Hp n) in Hseg; [done|]. by apply entry_of_Some.
  - by rewrite lookup_insert_ne.
Qed.

Lemma entry_of_path_join d n :
  valid_name n = true → ∀ n', entry_of d (Py.path_join d n) = Some n' → n' = n.
Proof.
  intros Hv n' [Hv' Heq]%entry_of_Some. symmetry. by eapply path_join_inj.
Qed.

(** ** The merge *)

(** Every session the constructor builds keeps its manifest in its
    output directory; no method assigns either field afterwards. *)
Lemma init_constructed url dir seg interval retries username password :
  constructed (__init__ url dir seg interval retries username password).1.
Proof. unfold __init__. by destruct (_build_auth_url url username password). Qed.

Lemma for_each_if {A} (P : A → bool) (f : A → M unit) (l : list A) w :
  for_each l (λ x, if P x then f x else ret tt) w = for_each (List.filter P l) f w.
Proof.
  revert w. induction l as [|x l IH]; intros w; [done|].
  cbn [for_each List.filter]. destruct (P x).
  - cbn [for_each]. unfold bind. destruct (f x w) as [[[[]|e] w1] t1]; [|done].
    by rewrite IH.
  - unfold bind, ret at 1. rewrite IH.
    by destruct (for_each _ f w) as [[r w2] t2].
Qed.

Lemma set_files_id w : set_files (files w) w = w.
Proof. by destruct w. Qed.

Lemma write_manifest d path segs w c :
  files w !! path = Some c →
  for_each segs (λ file, write path (manifest_line d file)) w
  = (Returns tt,
     set_files (<[path := c +:+ manifest d segs]> (files w)) w,
     (λ file, Write path (manifest_line d file)) <$> segs).
Proof.
  revert w c. induction segs as [|n segs IH]; intros w c Hc.
  - cbn. unfold ret. rewrite string_app_nil_r, insert_id by done.
    by rewrite set_files_id.
  - cbn [for_each]. unfold bind, write at 1. unfold bind, emit, modify.
    rewrite Hc. cbn [default].
    rewrite (IH _ (c +:+ manifest_line d n)) by apply lookup_insert_eq.
    cbn [set_files files self]. rewrite insert_insert_eq, string_app_assoc.
    done.
Qed.

Lemma lookup_remove_files d segs (fs : gmap string string) p :
  remove_files d segs fs !! p
  = if decide (p ∈ Py.path_join d <$> segs) then None else fs !! p.
Proof.
  revert fs. induction segs as [|n segs IH]; intros fs; [done|].
  cbn [remove_files foldl]. fold (remove_files d segs (delete (Py.path_join d n) fs)).
  rewrite IH, fmap_cons.
  destruct (decide (p ∈ Py.path_join d <$> segs)) as [Hin|Hout].
  - rewrite decide_True; [done|by right].
  - destruct (decide (p = Py.path_join d n)) as [->|Hne].
    + rewrite decide_True; [apply lookup_delete_eq|by left].
    + rewrite decide_False, lookup_delete_ne; [done|done|].
      by intros [?|?]%elem_of_cons.
Qed.

Lemma remove_all d segs w :
  NoDup (Py.path_join d <$> segs) →
  (∀ n, n ∈ segs → is_Some (files w !! Py.path_join d n)) →
  for_each segs (λ file, os_remove (Py.path_join d file)) w
  = (Returns tt, set_files (remove_files d segs (files w)) w,
     (λ n, Remove (Py.path_join d n)) <$> segs).
Proof.
  revert w. induction segs as [|n segs IH]; intros w Hnd Hin.
  - cbn. unfold ret. by rewrite set_files_id.
  - rewrite fmap_cons in Hnd. apply NoDup_cons in Hnd as [Hn Hnd].
    destruct (Hin n) as [c Hc]; [left|].
    cbn [for_each]. unfold bind, os_remove at 1. unfold bind, emit, get, modify.
    rewrite Hc. rewrite IH; [done|done|].
    intros n' Hn'. cbn [set_files files].
    rewrite lookup_delete_ne; [apply Hin; by right|].
    intros Heq. apply Hn. rewrite Heq. by apply list_elem_of_fmap_2.
Qed.

Lemma for_each_segments d (fs : gmap string string) (f : string → M unit) w :
  for_each (Py.sorted (omap (entry_of d) (elements (dom fs))))
    (λ file, if is_segment file then f file else ret tt) w
  = for_each (segments d fs) f w.
Proof. apply for_each_if. Qed.


Lemma manifest_not_segment s :
  constructed s →
  ∀ n, entry_of (output_dir s) (file_list_path s) = Some n → is_segment n = false.
Proof.
  intros Hc n Hn. rewrite Hc in Hn.
  by rewrite (entry_of_path_join _ "file_list.txt" eq_refl n Hn).
Qed.

Lemma merged_not_segment s :
  ∀ n, entry_of (output_dir s) (merged_output_of s) = Some n → is_segment n = false.
Proof.
  intros n Hn.
  by rewrite (entry_of_path_join _ "final_recording.mp4" eq_refl n Hn).
Qed.

Lemma NoDup_segment_paths d fs : NoDup (Py.path_join d <$> segments d fs).
Proof.
  apply NoDup_fmap_2_strong; [|apply NoDup_segments].
  intros n1 n2 (_ & H1 & _)%elem_of_segments (_ & H2 & _)%elem_of_segments.
  by apply path_join_inj.
Qed.

(** Up to the call of the concatenation tool: the manifest is written. *)
Ltac merge_begin Hc :=
  unfold merge_segments;
  unfold bind, try_except, open_w, listdir, subprocess_run_check, print, get, modify;
  cbn -[for_each Py.path_join merged_output_of merge_command segments];
  rewrite for_each_segments;
  rewrite (segments_insert _ _ _ _ (manifest_not_segment _ Hc));
  rewrite (write_manifest _ _ _ _ "") by apply lookup_insert_eq;
  cbn -[for_each Py.path_join merged_output_of merge_command segments];
  rewrite insert_insert_eq, string_app_nil_l.

Lemma merge_segments_success E w diag written :
  constructed (self w) →
  ffmpeg E = ConcatExit 0 diag written →
  let s := self w in
  let segs := segments (output_dir s) (files w) in
  merge_segments E w
  = (Returns None,
     set_files
       (remove_files (output_dir s) segs
          (written_by written (merged_output_of s)
             (<[file_list_path s := manifest (output_dir s) segs]> (files w)))) w,
     merge_prefix s segs
     ++ [Print ("✅ Merged recording saved: " +:+ merged_output_of s)]
     ++ ((λ n, Remove (Py.path_join (output_dir s) n)) <$> segs)).
Proof.
  intros Hc Hff s segs. merge_begin Hc. rewrite Hff.
  assert (Hex : ∀ fs' : gmap string string,
            (∀ p, is_Some (files w !! p) → is_Some (fs' !! p)) →
            ∀ n, n ∈ segs → is_Some (fs' !! Py.path_join (output_dir s) n)).
  { intros fs' Hsub n (_ & _ & Hn)%elem_of_segments. by apply Hsub. }
  destruct written as [c|]; unfold bind;
    cbn -[for_each Py.path_join merged_output_of merge_command segments];
    rewrite for_each_segments;
    rewrite ?(segments_insert _ _ _ _ (merged_not_segment _));
    rewrite (segments_insert _ _ _ _ (manifest_not_segment _ Hc));
    (rewrite remove_all;
     [ unfold set_files; cbn [self files]; subst s segs; unfold merge_prefix;
       f_equal; cbn [app]; by rewrite app_nil_r, <- app_assoc
     | apply NoDup_segment_paths
     | apply Hex; intros p Hp; cbn [set_files files];
       rewrite ?lookup_insert_is_Some'; auto ]).
Qed.

Lemma merge_segments_failure E w rc diag written :
  constructed (self w) →
  ffmpeg E = ConcatExit rc diag written →
  rc ≠ 0 →
  let s := self w in
  let segs := segments (output_dir s) (files w) in
  merge_segments E w
  = (Returns None,
     set_files
       (written_by written (merged_output_of s)
          (<[file_list_path s := manifest (output_dir s) segs]> (files w))) w,
     merge_prefix s segs
     ++ [Print ("❌ Merging error: "
                +:+ str_exn (CalledProcessError rc (merge_command s)))]).
Proof.
  intros Hc Hff Hrc s segs. merge_begin Hc. rewrite Hff.
  apply Z.eqb_neq in Hrc. rewrite Hrc.
  destruct written as [c|]; unfold bind;
    cbn -[for_each Py.path_join merged_output_of merge_command segments str_exn];
    unfold set_files; cbn [self files]; subst s segs; unfold merge_prefix;
    f_equal; cbn [app]; by rewrite ?app_nil_r, <- ?app_assoc.
Qed.

Lemma merge_segments_not_started E w e :
  constructed (self w) →
  ffmpeg E = ConcatRaises e →
  let s := self w in
  let segs := segments (output_dir s) (files w) in
  merge_segments E w
  = (match e with CalledProcessError _ _ => Returns None | _ => Raised e end,
     set_files (<[file_list_path s := manifest (output_dir s) segs]> (files w)) w,
     merge_prefix s segs
     ++ match e with
        | CalledProcessError _ _ => [Print ("❌ Merging error: " +:+ str_exn e)]
        | _ => []
        end).
Proof.
  intros Hc Hff s segs. merge_begin Hc. rewrite Hff.
  destruct e; unfold bind, raise;
    cbn -[for_each Py.path_join merged_output_of merge_command segments str_exn];
    unfold set_files; cbn [self files]; subst s segs; unfold merge_prefix;
    f_equal; cbn [app]; by rewrite ?app_nil_r, <- ?app_assoc.
Qed.

(** The files left by a merge, whatever the concatenation tool did. *)
Lemma merge_segments_files E w :
  constructed (self w) →
  let s := self w in
  let segs := segments (output_dir s) (files w) in
  ∃ written removed,
    (removed = segs ∨ removed = [])
    ∧ world_of (merge_segments E) w
      = set_files
          (remove_files (output_dir s) removed
             (written_by written (merged_output_of s)
                (<[file_list_path s := manifest (output_dir s) segs]> (files w)))) w.
Proof.
  intros Hc s segs. unfold world_of.
  destruct (ffmpeg E) as [rc diag written|e] eqn:Hff.
  - destruct (decide (rc = 0)) as [->|Hrc].
    + rewrite (merge_segments_success E w diag written Hc Hff).
      exists written, segs. auto.
    + rewrite (merge_segments_failure E w rc diag written Hc Hff Hrc).
      exists written, []. auto.
  - rewrite (merge_segments_not_started E w e Hc Hff).
    exists None, []. auto.
Qed.

Lemma segment_path_entry d fs n :
  n ∈ segments d fs →
  entry_of d (Py.path_join d n) = Some n ∧ is_segment n = true.
Proof.
  intros (Hseg & Hv & _)%elem_of_segments. split; [|done].
  by apply entry_of_Some.
Qed.

Lemma lookup_remove_files_other d fs segs (fs' : gmap string string) p :
  (∀ n, n ∈ segs → n ∈ segments d fs) →
  (∀ n, entry_of d p = Some n → is_segment n = false) →
  remove_files d segs fs' !! p = fs' !! p.
Proof.
  intros Hsub Hp. rewrite lookup_remove_files.
  rewrite decide_False; [done|].
  intros (n & -> & Hn)%list_elem_of_fmap.
  destruct (segment_path_entry d fs n (Hsub n Hn)) as [He Hs].
  by rewrite (Hp n He) in Hs.
Qed.

Lemma lookup_written_by_other written out (fs : gmap string string) p :
  p ≠ out → written_by written out fs !! p = fs !! p.
Proof. intros Hne. destruct written; [by apply lookup_insert_ne|done]. Qed.

Lemma path_join_relative d n :
  Py.startswith n "/" = false → Py.path_join d n = Py.path_join d "" +:+ n.
Proof.
  intros Hsl. unfold Py.path_join. rewrite Hsl.
  cbn [Py.startswith String.prefix].
  destruct (String.eqb d "" || Py.endswith d "/").
  - by rewrite string_app_nil_r.
  - by rewrite !string_app_assoc.
Qed.

Lemma recording_path_entry d ts n :
  entry_of d (Py.path_join d (recording_name ts)) = Some n → n = recording_name ts.
Proof.
  intros [Hv Heq]%entry_of_Some.
  rewrite (path_join_relative d (recording_name ts)) in Heq by done.
  rewrite (path_join_valid d n) in Heq by done.
  symmetry. by apply String.app_inj in Heq.
Qed.

Lemma recording_path_other d ts name :
  Py.startswith name "/" = false → name ≠ recording_name ts →
  Py.path_join d (recording_name ts) ≠ Py.path_join d name.
Proof.
  intros Hsl Hne Heq.
  rewrite (path_join_relative d (recording_name ts)) in Heq by done.
  rewrite (path_join_relative d name) in Heq by done.
  apply String.app_inj in Heq. congruence.
Qed.

(** C10: whatever the concatenation tool does, the merge leaves alone
    every file that is neither a [segment_*.mp4] of the output directory,
    nor [file_list.txt], nor [final_recording.mp4] there; the file of the
    capture pipeline, [recording_<timestamp>.mkv], never matches the segment
    pattern, is never listed in the manifest and is never deleted. *)
Theorem merge_frame (E : Env) (w : world) :
  constructed (self w) →
  let s := self w in
  let w' := world_of (merge_segments E) w in
  (∀ p, (∀ n, entry_of (output_dir s) p = Some n → is_segment n = false) →
        p ≠ file_list_path s → p ≠ merged_output_of s →
        files w' !! p = files w !! p)
  ∧ self w' = s
  ∧ ∀ ts, is_segment (recording_name ts) = false
          ∧ (recording_name ts ∉ segments (output_dir s) (files w))
          ∧ files w' !! Py.path_join (output_dir s) (recording_name ts)
            = files w !! Py.path_join (output_dir s) (recording_name ts).
Proof.
  intros Hc s w'. subst s.
  destruct (merge_segments_files E w Hc) as (written & removed & Hrem & Hw).
  fold w' in Hw.
  assert (Hsub : ∀ n, n ∈ removed → n ∈ segments (output_dir (self w)) (files w)).
  { destruct Hrem as [-> | ->]; [done|]. by intros n Hn%elem_of_nil. }
  assert (Hframe : ∀ p,
            (∀ n, entry_of (output_dir (self w)) p = Some n → is_segment n = false) →
            p ≠ file_list_path (self w) → p ≠ merged_output_of (self w) →
            files w' !! p = files w !! p).
  { intros p Hp Hfl Hmo. rewrite Hw. cbn [set_files files].
    rewrite (lookup_remove_files_other _ (files w)) by done.
    rewrite lookup_written_by_other by done. by rewrite lookup_insert_ne. }
  split; [done|]. split; [by rewrite Hw|].
  intros ts. split; [done|]. split.
  - by intros (Hseg & _)%elem_of_segments.
  - apply Hframe.
    + intros n ->%recording_path_entry. done.
    + rewrite Hc. by apply recording_path_other.
    + by apply recording_path_other.
Qed.

Lemma merge_frame_witness :
  let s := self demo_world in
  let w' := world_of (merge_segments concatenating) demo_world in
  (∀ p, (∀ n, entry_of (output_dir s) p = Some n → is_segment n = false) →
        p ≠ file_list_path s → p ≠ merged_output_of s →
        files w' !! p = files demo_world !! p)
  ∧ self w' = s
  ∧ ∀ ts, is_segment (recording_name ts) = false
          ∧ (recording_name ts ∉ segments (output_dir s) (files demo_world))
          ∧ files w' !! Py.path_join (output_dir s) (recording_name ts)
            = files demo_world !! Py.path_join (output_dir s) (recording_name ts).
Proof. apply (merge_frame concatenating demo_world). reflexivity. Defined.














(** * Further properties *)

(** ** The probe, when the stream answers *)

Lemma probe_once_counts E k w :
  ∃ b t, probe_once E k w = (Returns b, w, t)
         ∧ b = negb (attempt_fails (gst_discoverer E k))
         ∧ List.filter (λ e, is_run e || is_sleep e) t
           = [Run (inspect_command (self w)) (Some 5)].
Proof.
  unfold probe_once, subprocess_run, attempt_fails.
  destruct (gst_discoverer E k) as [rc out err|e].
  - run_m. destruct (has_video rc (Py.strip out)); cbn; eauto.
  - destruct e; run_m; eauto.
Qed.

(** The passes over [l1] all fail: the loop goes on with what follows. *)
Lemma probe_loop_app E w l1 l2 :
  (∀ k, k ∈ l1 → attempt_fails (gst_discoverer E k) = true) →
  ∃ t1, List.filter (λ e, is_run e || is_sleep e) t1
        = mjoin (replicate (length l1) (probe_round (self w)))
        ∧ probe_loop E (l1 ++ l2) w
          = ((probe_loop E l2 w).1.1, (probe_loop E l2 w).1.2,
             t1 ++ (probe_loop E l2 w).2).
Proof.
  induction l1 as [|k l1 IH]; intros Hall.
  - exists []. split; [done|]. cbn [app]. by destruct (probe_loop E l2 w) as [[r w'] t'].
  - destruct (probe_once_counts E k w) as (b & t & H1 & Hb & Ht).
    rewrite Hall in Hb by left. subst b.
    destruct IH as (t1 & Hf1 & Hloop).
    { intros k' Hk'. apply Hall. by right. }
    exists (t ++ Sleep (retry_interval (self w)) :: t1). split.
    + rewrite List.filter_app, Ht. cbn. by rewrite Hf1.
    + cbn [app probe_loop]. unfold bind at 1. rewrite H1. run_m.
      rewrite Hloop. cbn. by rewrite <- app_assoc.
Qed.

(** X1: with the first [k - 1] passes failing and pass [k] finding the
    stream, [k] no greater than [max_retries], the probe runs the
    inspection tool exactly [k] times, sleeps between the passes and not
    after the last, and returns [True]. *)
Theorem probe_succeeds_at (E : Env) (w : world) (k : nat) :
  (1 ≤ k)%nat →
  Z.of_nat k ≤ max_retries (self w) →
  (∀ j, 1 ≤ j < Z.of_nat k → attempt_fails (gst_discoverer E j) = true) →
  attempt_fails (gst_discoverer E (Z.of_nat k)) = false →
  result_of (_is_rtsp_available E) w = Returns true
  ∧ world_of (_is_rtsp_available E) w = w
  ∧ List.filter (λ e, is_run e || is_sleep e) (trace_of (_is_rtsp_available E) w)
    = mjoin (replicate (k - 1) (probe_round (self w)))
      ++ [Run (inspect_command (self w)) (Some 5)].
Proof.
  intros Hk Hmax Hfail Hok.
  assert (seqZ 1 (max_retries (self w))
          = seqZ 1 (Z.of_nat (k - 1))
            ++ Z.of_nat k :: seqZ (Z.of_nat k + 1) (max_retries (self w) - Z.of_nat k))
    as Hseq.
  { replace (max_retries (self w))
      with (Z.of_nat (k - 1) + (max_retries (self w) - Z.of_nat (k - 1))) at 1 by lia.
    rewrite seqZ_app by lia. f_equal.
    rewrite seqZ_cons by lia. f_equal; [lia|]. f_equal; lia. }
  destruct (probe_loop_app E w (seqZ 1 (Z.of_nat (k - 1)))
              (Z.of_nat k :: seqZ (Z.of_nat k + 1) (max_retries (self w) - Z.of_nat k)))
    as (t1 & Hf1 & Hloop).
  { intros j Hj%elem_of_seqZ. apply Hfail. lia. }
  destruct (probe_once_counts E (Z.of_nat k) w) as (b & t & H1 & Hb & Ht).
  rewrite Hok in Hb. subst b.
  assert (probe_loop E
            (Z.of_nat k :: seqZ (Z.of_nat k + 1) (max_retries (self w) - Z.of_nat k)) w
          = (Returns true, w, t)) as Hlast.
  { cbn [probe_loop]. unfold bind at 1. rewrite H1. cbn. by rewrite app_nil_r. }
  rewrite Hlast in Hloop.
  unfold result_of, world_of, trace_of, _is_rtsp_available.
  unfold bind, get. rewrite Hseq, Hloop. cbn [fst snd app].
  rewrite List.filter_app, Hf1, Ht, length_seqZ, Nat2Z.id. done.
Qed.

Lemma probe_succeeds_at_witness :
  result_of (_is_rtsp_available answering_third) demo_world = Returns true
  ∧ world_of (_is_rtsp_available answering_third) demo_world = demo_world
  ∧ List.filter (λ e, is_run e || is_sleep e)
      (trace_of (_is_rtsp_available answering_third) demo_world)
    = mjoin (replicate (3 - 1) (probe_round (self demo_world)))
      ++ [Run (inspect_command (self demo_world)) (Some 5)].
Proof.
  apply (probe_succeeds_at answering_third demo_world 3).
  - lia.
  - vm_compute. discriminate.
  - intros j Hj. assert (j = 1 ∨ j = 2) as [-> | ->] by lia; reflexivity.
  - reflexivity.
Defined.

(** ** What the methods keep *)

Section keeps.
Context (R : relation world) `{!PreOrder R}.

Lemma keeps_ret {A} (a : A) : keeps R (ret a).
Proof. intros w. reflexivity. Qed.

Lemma keeps_raise {A} (e : exn) : keeps R (raise (A:=A) e).
Proof. intros w. reflexivity. Qed.

Lemma keeps_emit (e : event) : keeps R (emit e).
Proof. intros w. reflexivity. Qed.

Lemma keeps_get : keeps R get.
Proof. intros w. reflexivity. Qed.

Lemma keeps_modify (f : world → world) : (∀ w, R w (f w)) → keeps R (modify f).
Proof. intros Hf w. apply Hf. Qed.

Lemma keeps_bind {A B} (m : M A) (k : A → M B) :
  keeps R m → (∀ a, keeps R (k a)) → keeps R (bind m k).
Proof.
  intros Hm Hk w. specialize (Hm w). unfold world_of, bind in *.
  destruct (m w) as [[[a|e] w1] t1]; [|done].
  specialize (Hk a w1). unfold world_of in Hk.
  destruct (k a w1) as [[r w2] t2]. cbn in *. by etrans.
Qed.

Lemma keeps_try_except {A} (body : M A) (handler : exn → option (M A)) :
  keeps R body → (∀ e h, handler e = Some h → keeps R h) →
  keeps R (try_except body handler).
Proof.
  intros Hm Hh w. specialize (Hm w). unfold world_of, try_except in *.
  destruct (body w) as [[[a|e] w1] t1]; [done|].
  destruct (handler e) as [h|] eqn:He; [|done].
  specialize (Hh e h He w1). unfold world_of in Hh.
  destruct (h w1) as [[r w2] t2]. cbn in *. by etrans.
Qed.

Lemma keeps_for_each {A} (l : list A) (body : A → M unit) :
  (∀ x, keeps R (body x)) → keeps R (for_each l body).
Proof.
  intros Hb. induction l as [|x l IH]; [apply keeps_ret|].
  cbn [for_each]. apply keeps_bind; [apply Hb|done].
Qed.

End keeps.

Global Instance settles_preorder : PreOrder settles.
Proof.
  split.
  - by intros w.
  - intros w1 w2 w3 [Hc1 Hr1] [Hc2 Hr2]. split; [congruence|auto].
Qed.

Lemma settles_set_files fs w : settles w (set_files fs w).
Proof. by split. Qed.

Lemma settles_set_thread t w : settles w (set_thread t w).
Proof. by split. Qed.

Lemma settles_clear_recording w : settles w (set_recording false w).
Proof. by split. Qed.

Create HintDb keeps.

Ltac keeps_step :=
  lazymatch goal with
  | |- PreOrder _ => apply _
  | |- keeps _ _ =>
      first
        [ solve [trivial with keeps nocore]
        | apply keeps_ret | apply keeps_raise | apply keeps_emit | apply keeps_get
        | apply keeps_modify; intros ?;
          first [ apply settles_set_files | apply settles_set_thread
                | apply settles_clear_recording
                | by (case_match; [apply settles_set_files|reflexivity]) ]
        | apply keeps_bind
        | apply keeps_try_except
        | apply keeps_for_each
        | case_match; simplify_eq
        | progress simplify_eq/= ]
  | |- ∀ _, _ => intro
  end.

Lemma settles_listdir d : keeps settles (listdir d).
Proof. by intros w. Qed.
Local Hint Resolve settles_listdir : keeps.

Lemma settles_probe_loop E attempts : keeps settles (probe_loop E attempts).
Proof.
  induction attempts as [|k rest IH]; cbn [probe_loop];
    unfold probe_once, subprocess_run, print; repeat keeps_step.
Qed.
Local Hint Resolve settles_probe_loop : keeps.

Lemma settles_is_rtsp_available E : keeps settles (_is_rtsp_available E).
Proof. unfold _is_rtsp_available. repeat keeps_step. Qed.
Local Hint Resolve settles_is_rtsp_available : keeps.

Lemma settles_record E : keeps settles (_record E).
Proof. unfold _record, subprocess_Popen, print. repeat keeps_step. Qed.
Local Hint Resolve settles_record : keeps.

Lemma settles_worker E : keeps settles (worker E).
Proof. unfold worker. repeat keeps_step. Qed.
Local Hint Resolve settles_worker : keeps.

Lemma settles_join E : keeps settles (join E).
Proof. unfold join. repeat keeps_step. Qed.
Local Hint Resolve settles_join : keeps.

Lemma settles_merge_segments E : keeps settles (merge_segments E).
Proof.
  unfold merge_segments, print, open_w, write, os_remove, subprocess_run_check.
  repeat keeps_step.
Qed.
Local Hint Resolve settles_merge_segments : keeps.

Lemma settles_stop E : keeps settles (stop E).
Proof. unfold stop, print. repeat keeps_step. Qed.

Lemma worker_returns E w : result_of (worker E) w = Returns tt.
Proof.
  unfold result_of, worker. run_m.
  destruct (thread (self w)) as [[|]|]; [|done..].
  destruct (_record E w) as [[[[]|e] w'] t']; done.
Qed.

Lemma join_returns E w :
  join E w = (Returns tt, world_of (worker E) w, trace_of (worker E) w ++ [ThreadJoin]).
Proof.
  pose proof (worker_returns E w) as Hr. unfold result_of in Hr.
  unfold join, world_of, trace_of, bind.
  destruct (worker E w) as [[r w'] t']. cbn in *. by subst r.
Qed.

(** What [stop()] does on a session that is recording: the stop line,
    the flag cleared, the worker joined if there is one, then the merge on
    the world the worker left. *)
Lemma stop_when_recording E w :
  recording (self w) = true →
  let w1 := set_recording false w in
  let w2 := match thread (self w) with
            | Some _ => world_of (worker E) w1
            | None => w1
            end in
  stop E w
  = (match result_of (merge_segments E) w2 with
     | Returns _ => Returns tt
     | Raised e => Raised e
     end,
     world_of (merge_segments E) w2,
     Print ("🛑 Stopping recording for " +:+ stream_url (self w))
     :: match thread (self w) with
        | Some _ => trace_of (worker E) w1 ++ [ThreadJoin]
        | None => []
        end
     ++ trace_of (merge_segments E) w2).
Proof.
  intros Hrec w1 w2. subst w1 w2.
  unfold stop, bind, get, print, modify, ret.
  cbn -[merge_segments join worker]. rewrite Hrec.
  unfold result_of, world_of, trace_of.
  destruct (thread (self w)) as [th|].
  - rewrite join_returns. unfold world_of, trace_of.
    destruct (merge_segments E _) as [[[r|e] w'] t']; cbn;
      by rewrite ?app_nil_r.
  - destruct (merge_segments E _) as [[[r|e] w'] t']; cbn;
      by rewrite ?app_nil_r.
Qed.

(** X2: no method changes the configuration of a session: the stream URL,
    the output directory, the segment time, the retry parameters and the
    path of the manifest are, after [start()], after the worker, after
    [stop()], after a merge and after a whole cycle, what they were. *)
Theorem config_is_kept (E : Env) (w : world) :
  config (self (world_of start w)) = config (self w)
  ∧ config (self (world_of (worker E) w)) = config (self w)
  ∧ config (self (world_of (stop E) w)) = config (self w)
  ∧ config (self (world_of (merge_segments E) w)) = config (self w)
  ∧ config (self (world_of (start ;;; worker E ;;; stop E) w)) = config (self w).
Proof.
  assert (Hstart : ∀ w0, config (self (world_of start w0)) = config (self w0)).
  { intros w0. unfold world_of, start. run_m. by destruct (recording (self w0)). }
  split; [apply Hstart|].
  split; [apply settles_worker|].
  split; [apply settles_stop|].
  split; [apply settles_merge_segments|].
  set (R0 := λ w0 w1 : world, config (self w1) = config (self w0)).
  assert (PreOrder R0) as HR0.
  { split; [by intros ?|]. intros w1 w2 w3 H12 H23. unfold R0 in *. congruence. }
  assert (keeps R0 (start ;;; worker E ;;; stop E)) as Hall.
  { apply keeps_bind; [done|exact Hstart|]. intros _.
    apply keeps_bind; [done|intros w0; apply settles_worker|]. intros _.
    intros w0; apply settles_stop. }
  apply Hall.
Qed.


(** X3: whatever happens in it, a [stop()] leaves the recording flag clear,
    also when the merge raises; so a second [stop()] does nothing at all,
    and a [start()] after it starts a new worker. *)
Theorem stop_settles_session (E : Env) (w : world) :
  let w' := world_of (stop E) w in
  recording (self w') = false
  ∧ (∀ E', stop E' w' = (Returns tt, w', []))
  ∧ List.filter is_thread_start (trace_of start w') = [ThreadStart]
  ∧ recording (self (world_of start w')) = true.
Proof.
  intros w'.
  assert (recording (self w') = false) as Hclear.
  { subst w'. destruct (recording (self w)) eqn:Hrec.
    - unfold world_of at 1. rewrite (stop_when_recording E w Hrec). cbn [fst snd].
      apply settles_merge_segments.
      destruct (thread (self w)); [by apply settles_worker|done].
    - unfold world_of. by rewrite (stop_when_idle E w Hrec). }
  split; [done|]. split; [intros E'; by apply stop_when_idle|].
  unfold trace_of, world_of. by rewrite (start_when_idle w' Hclear).
Qed.

(** ** The probe, whatever the tool answers *)

Lemma bfilter_narrow {A} (f g : A → bool) (l : list A) :
  (∀ x, f x = true → g x = true) →
  List.filter f (List.filter g l) = List.filter f l.
Proof.
  intros H. induction l as [|x l IH]; [done|]. cbn.
  destruct (g x) eqn:Hg; cbn; [by rewrite IH|].
  destruct (f x) eqn:Hf; [|done]. rewrite (H x Hf) in Hg. done.
Qed.

Lemma probe_loop_bounded E attempts w :
  ∃ b t, probe_loop E attempts w = (Returns b, w, t)
         ∧ (length (List.filter is_run t) ≤ length attempts)%nat
         ∧ (length (List.filter is_sleep t) ≤ length (List.filter is_run t))%nat.
Proof.
  induction attempts as [|k rest IH].
  - run_m. do 2 eexists. split; [reflexivity|]. cbn. lia.
  - destruct (probe_once_counts E k w) as (b & t & H1 & _ & Ht).
    assert (List.filter is_run t = [Run (inspect_command (self w)) (Some 5)]) as Hr.
    { rewrite <- (bfilter_narrow is_run (λ e, is_run e || is_sleep e)), Ht; [done|].
      by intros [] ?. }
    assert (List.filter is_sleep t = []) as Hs.
    { rewrite <- (bfilter_narrow is_sleep (λ e, is_run e || is_sleep e)), Ht; [done|].
      by intros [] ?. }
    destruct IH as (b' & t' & Hloop & Hle & Hsl).
    cbn [probe_loop]. unfold bind at 1. rewrite H1. destruct b.
    + run_m. do 2 eexists. split; [reflexivity|].
      rewrite app_nil_r, Hr, Hs. cbn. lia.
    + run_m. rewrite Hloop. do 2 eexists. split; [reflexivity|].
      rewrite !List.filter_app, Hr, Hs. cbn. lia.
Qed.

(** X4: whatever the inspection tool does, answer, fail, time out or raise,
    the probe returns a boolean and raises nothing, changes neither the
    session nor the files, runs the tool at most [max_retries] times and
    sleeps at most once for each run. *)
Theorem probe_is_bounded (E : Env) (w : world) :
  let t := trace_of (_is_rtsp_available E) w in
  (∃ b, result_of (_is_rtsp_available E) w = Returns b)
  ∧ world_of (_is_rtsp_available E) w = w
  ∧ (length (List.filter is_run t) ≤ Z.to_nat (max_retries (self w)))%nat
  ∧ (length (List.filter is_sleep t) ≤ length (List.filter is_run t))%nat.
Proof.
  destruct (probe_loop_bounded E (seqZ 1 (max_retries (self w))) w)
    as (b & t & Hloop & Hle & Hsl).
  rewrite length_seqZ in Hle.
  unfold result_of, world_of, trace_of, _is_rtsp_available. run_m.
  rewrite Hloop. cbn. eauto.
Qed.

(** X5: with [max_retries] below one the probe never runs the inspection
    tool: it prints the abort line and returns [False]; a worker started
    on such a session never launches the capture pipeline. *)
Theorem no_retries_no_probe (E : Env) (w : world) :
  max_retries (self w) ≤ 0 →
  _is_rtsp_available E w
  = (Returns false, w,
     [Print "🚨 RTSP stream did not become available. Aborting recording."])
  ∧ _record E w
    = (Returns tt, w,
       [Print "🚨 RTSP stream did not become available. Aborting recording."]).
Proof.
  intros Hmax.
  assert (_is_rtsp_available E w
          = (Returns false, w,
             [Print "🚨 RTSP stream did not become available. Aborting recording."]))
    as Hp.
  { unfold _is_rtsp_available. unfold bind, get. by rewrite seqZ_nil. }
  split; [done|]. unfold _record. unfold bind at 1. by rewrite Hp.
Qed.

Lemma no_retries_no_probe_witness :
  _is_rtsp_available concatenating never_retrying
  = (Returns false, never_retrying,
     [Print "🚨 RTSP stream did not become available. Aborting recording."])
  ∧ _record concatenating never_retrying
    = (Returns tt, never_retrying,
       [Print "🚨 RTSP stream did not become available. Aborting recording."]).
Proof. apply (no_retries_no_probe concatenating never_retrying). by vm_compute. Defined.

(** ** The worker, launching *)

(** X6: when the probe finds the stream and the capture pipeline runs and
    exits, the worker launches it once, on the words of the command line
    whose sink is [recording_<timestamp>.mkv] in the output directory,
    prints each line the pipeline writes, in order, and then waits. *)
Theorem record_launches_once (E : Env) (w : world) (lines : list string)
    (rc : Z) (recorded : option string) :
  result_of (_is_rtsp_available E) w = Returns true →
  gst_launch E = Exited lines rc recorded →
  let output_file := Py.path_join (output_dir (self w)) (recording_name (now E)) in
  _record E w
  = (Returns tt,
     set_files (written_by recorded output_file (files w)) w,
     trace_of (_is_rtsp_available E) w
     ++ [Print ("🎥 Starting GStreamer recording with x264enc: " +:+ output_file);
         Popen (Py.split (gst_command_str (stream_url (self w)) output_file))]
     ++ (PrintRaw <$> lines) ++ [Wait]).
Proof.
  intros Hok Hexit output_file. subst output_file.
  destruct (probe_is_bounded E w) as (_ & Hw & _).
  unfold result_of, world_of, trace_of in *.
  unfold _record. unfold bind at 1.
  destruct (_is_rtsp_available E w) as [[r w'] t]. cbn in Hok, Hw. subst r w'.
  cbn [negb fst snd]. unfold subprocess_Popen. rewrite Hexit. run_m.
  rewrite for_each_emit. cbn. destruct recorded; cbn; by rewrite ?set_files_id.
Qed.

Lemma record_launches_once_witness :
  let output_file := Py.path_join (output_dir (self demo_world))
                       (recording_name (now answering_third)) in
  _record answering_third demo_world
  = (Returns tt,
     set_files (written_by (Some "stream") output_file (files demo_world)) demo_world,
     trace_of (_is_rtsp_available answering_third) demo_world
     ++ [Print ("🎥 Starting GStreamer recording with x264enc: " +:+ output_file);
         Popen (Py.split (gst_command_str (stream_url (self demo_world)) output_file))]
     ++ (PrintRaw <$> ["a" +:+ Py.nl; "b" +:+ Py.nl]) ++ [Wait]).
Proof.
  apply (record_launches_once answering_third demo_world _ 0 (Some "stream")).
  - by vm_compute.
  - reflexivity.
Defined.

(** X7: when the capture pipeline cannot be launched, [gst-launch-1.0] not
    being installed for one, the exception ends the worker thread and goes
    no further: the worker is over, the recording flag and the files are
    as they were, and the error line of the handler is not printed. *)
Theorem launch_error_ends_worker (E : Env) (w : world) (e : exn) :
  thread (self w) = Some Alive →
  result_of (_is_rtsp_available E) w = Returns true →
  gst_launch E = PopenRaises e →
  (∀ rc cmd, e ≠ CalledProcessError rc cmd) →
  result_of (worker E) w = Returns tt
  ∧ world_of (worker E) w = set_thread (Some Finished) w
  ∧ last (trace_of (worker E) w) = Some (ThreadDied e)
  ∧ List.filter is_capture_error (trace_of (worker E) w) = [].
Proof.
  intros Hth Hok Hraise Hne.
  destruct (is_rtsp_available_total E w) as (b & t & Hp & _ & Herr).
  unfold result_of in Hok. rewrite Hp in Hok. cbn in Hok. simplify_eq.
  set (t' := t ++ [Print ("🎥 Starting GStreamer recording with x264enc: "
                           +:+ Py.path_join (output_dir (self w))
                                 (recording_name (now E)));
                    Popen (Py.split (gst_command_str (stream_url (self w))
                             (Py.path_join (output_dir (self w))
                                (recording_name (now E)))))]).
  assert (_record E w = (Raised e, w, t')) as Hrec.
  { unfold _record. unfold bind at 1. rewrite Hp. cbn [negb].
    unfold subprocess_Popen. rewrite Hraise. run_m.
    destruct e as [rc cmd| |]; [by destruct (Hne rc cmd)|done..]. }
  assert (worker E w
          = (Returns tt, set_thread (Some Finished) w, t' ++ [ThreadDied e]))
    as Hworker.
  { unfold worker. unfold bind at 1, get. rewrite Hth.
    unfold bind, try_except. rewrite Hrec. cbn. by rewrite app_nil_r. }
  unfold result_of, world_of, trace_of. rewrite Hworker. cbn [fst snd].
  split; [done|]. split; [done|]. split; [apply last_snoc|].
  subst t'. rewrite !List.filter_app, Herr. done.
Qed.

Lemma launch_error_ends_worker_witness :
  let w := world_of start demo_world in
  let e := OtherException "FileNotFoundError"
             "[Errno 2] No such file or directory: 'gst-launch-1.0'" in
  result_of (worker not_installed) w = Returns tt
  ∧ world_of (worker not_installed) w = set_thread (Some Finished) w
  ∧ last (trace_of (worker not_installed) w) = Some (ThreadDied e)
  ∧ List.filter is_capture_error (trace_of (worker not_installed) w) = [].
Proof.
  apply (launch_error_ends_worker not_installed (world_of start demo_world)).
  - reflexivity.
  - by vm_compute.
  - reflexivity.
  - discriminate.
Defined.

(** ** The merge, further *)







(** ** The segment pattern *)

Lemma prefix_true p s : String.prefix p s = true → ∃ r, s = p +:+ r.
Proof.
  revert s. induction p as [|a p IH]; intros s H; [by exists s|].
  destruct s as [|b s]; [done|]. cbn in H.
  destruct (ascii_dec a b) as [->|]; [|done].
  destruct (IH s H) as [r ->]. by exists r.
Qed.

Lemma endswith_true s suf : Py.endswith s suf = true → ∃ pre, s = pre +:+ suf.
Proof.
  induction s as [|c s IH]; cbn [Py.endswith]; intros H.
  - rewrite orb_false_r in H. apply String.eqb_eq in H as <-. by exists "".
  - apply orb_true_iff in H as [H|H].
    + apply String.eqb_eq in H as <-. by exists "".
    + destruct (IH H) as [pre ->]. by exists (String c pre).
Qed.

Lemma endswith_app pre suf : Py.endswith (pre +:+ suf) suf = true.
Proof.
  induction pre as [|c pre IH].
  - rewrite string_app_nil_l.
    destruct suf; cbn [Py.endswith]; by rewrite String.eqb_refl.
  - rewrite string_app_cons. cbn [Py.endswith]. rewrite IH. apply orb_true_r.
Qed.

(** X10: the files that the merge lists and deletes are those named
    [segment_<anything>.mp4], nothing being a possible [<anything>], and
    no others. *)
Theorem is_segment_iff (n : string) :
  is_segment n = true ↔ ∃ mid, n = "segment_" +:+ mid +:+ ".mp4".
Proof.
  unfold is_segment, Py.startswith. split.
  - intros [Hp Hs]%andb_true_iff. apply prefix_true in Hp as [r ->].
    change (Py.endswith ("segment_" +:+ r) ".mp4")
      with (Py.endswith r ".mp4") in Hs.
    apply endswith_true in Hs as [mid ->]. by exists mid.
  - intros [mid ->]. rewrite prefix_app.
    change (Py.endswith ("segment_" +:+ mid +:+ ".mp4") ".mp4")
      with (Py.endswith (mid +:+ ".mp4") ".mp4").
    by rewrite endswith_app.
Qed.

(** ** Credentials, further *)

Lemma contains_app sub pre post : Py.contains sub (pre +:+ sub +:+ post) = true.
Proof.
  induction pre as [|c pre IH].
  - rewrite string_app_nil_l.
    destruct (sub +:+ post) eqn:Heq; cbn [Py.contains];
      by rewrite <- Heq, prefix_app.
  - rewrite string_app_cons. cbn [Py.contains]. rewrite IH. apply orb_true_r.
Qed.

(** X11: the replacement looks for the lower-case text [rtsp://] only: on a
    URL that does not hold it ([rtsps://...], [RTSP://...], a bare host)
    the credentials are dropped, the URL comes back as it was, and the
    line about an authenticated URL is printed all the same. *)
Theorem build_auth_url_other_scheme (url u p : string) :
  u ≠ "" → p ≠ "" → Py.contains "rtsp://" url = false →
  _build_auth_url url (Some u) (Some p)
  = (url, [Print ("🔐 Using authenticated RTSP URL: " +:+ url)]).
Proof.
  intros Hu Hp Habs. unfold _build_auth_url.
  destruct u as [|cu u]; [done|]. destruct p as [|cp p]; [done|].
  cbn [Py.truthy andb default]. unfold Py.replace.
  by rewrite replace_from_absent.
Qed.

Lemma build_auth_url_other_scheme_witness :
  _build_auth_url "rtsps://camera/live" (Some "admin") (Some "secret")
  = ("rtsps://camera/live",
     [Print ("🔐 Using authenticated RTSP URL: " +:+ "rtsps://camera/live")]).
Proof. apply build_auth_url_other_scheme; done. Defined.

(** X12: the constructor prints the password: with credentials on an
    [rtsp://] URL, the one line it prints holds [user:password@] in clear,
    before the output directory is made. *)
Theorem init_prints_password (rest dir u p : string) (seg : Z) (interval : N)
    (retries : Z) :
  u ≠ "" → p ≠ "" → Py.contains "rtsp://" rest = false →
  let '(s, t) := __init__ ("rtsp://" +:+ rest) dir seg interval retries
                   (Some u) (Some p) in
  t = [Print ("🔐 Using authenticated RTSP URL: " +:+ stream_url s); Makedirs dir]
  ∧ printed (u +:+ ":" +:+ p +:+ "@") t = true.
Proof.
  intros Hu Hp Habs. unfold __init__, _build_auth_url.
  destruct u as [|cu u]; [done|]. destruct p as [|cp p]; [done|].
  cbn [Py.truthy andb default]. rewrite replace_leading by done.
  cbn [stream_url app]. split; [done|].
  unfold printed. cbn [existsb]. rewrite orb_false_r.
  set (cred := String cu u +:+ ":" +:+ String cp p +:+ "@").
  replace (_ +:+ _)
    with (("🔐 Using authenticated RTSP URL: " +:+ "rtsp://") +:+ cred +:+ rest);
    [apply contains_app|].
  subst cred. by rewrite !string_app_assoc.
Qed.

Lemma init_prints_password_witness :
  let '(s, t) := __init__ ("rtsp://" +:+ "camera/live") "rec" 600 1 30
                   (Some "admin") (Some "secret") in
  t = [Print ("🔐 Using authenticated RTSP URL: " +:+ stream_url s); Makedirs "rec"]
  ∧ printed ("admin" +:+ ":" +:+ "secret" +:+ "@") t = true.
Proof. apply (init_prints_password "camera/live" "rec" "admin" "secret"); done. Defined.

(** ** The capture command *)





(** A blank in the URL splits it: what follows the blank reaches the
    capture tool as words of its own. *)
Example gst_command_url_with_blank :
  Py.split (gst_command_str "rtsp://cam/a b" "out.mkv")
  = ["gst-launch-1.0"; "rtspsrc"; "location=rtsp://cam/a"; "b"; "!"; "decodebin";
     "!"; "videoconvert"; "!"; "video/x-raw!"; "x264enc"; "tune=zerolatency";
     "speed-preset=ultrafast"; "bitrate=2048"; "!"; "h264parse";
     "!"; "matroskamux"; "!"; "filesink"; "location=out.mkv";
     "sync=1"; "async=1"].
Proof. reflexivity. Qed.

(** * Properties of the client *)

Ltac run_c :=
  unfold mbind, C_bind, mret, C_ret, say, act, get_state, update, throw; cbn.


Lemma start_recording_fresh name s :
  Go2RTCClient.recorders (client s) !! name = None →
  start_recording name s
  = (Returns tt,
     {| client := Go2RTCClient.set_recorders
                    (<[name := started name (Go2RTCClient.output_dir (client s))]>
                       (Go2RTCClient.recorders (client s)))
                    (client s);
        fs := fs s |},
     [Effect (Print ("🎬 Starting recording for " +:+ name +:+ " at "
                       +:+ "rtsp://localhost:8554/" +:+ name));
      Effect (Makedirs (Go2RTCClient.output_dir (client s)));
      Effect (Print ("🎥 Waiting for RTSP stream to be available for "
                       +:+ "rtsp://localhost:8554/" +:+ name));
      Effect ThreadStart]).
Proof.
  intros Hnew. unfold start_recording. run_c. rewrite Hnew.
  unfold call, Go2RTCClient.set_recorders. cbn.
  by rewrite insert_insert_eq.
Qed.

Lemma start_recording_known name s r :
  Go2RTCClient.recorders (client s) !! name = Some r →
  start_recording name s
  = (Returns tt, s, [Effect (Print ("⚠️ Recording already running for " +:+ name))]).
Proof. intros Hr. unfold start_recording. run_c. by rewrite Hr. Qed.

(** ** Starting and stopping by name *)

(** X14: whatever the registry held, after [start_recording(name)] the name is
    registered, and a second call only prints the warning: it builds no
    recorder, starts no thread and changes nothing. *)
Theorem start_recording_twice (name : string) (s : state) :
  let s1 := (start_recording name s).1.2 in
  is_Some (Go2RTCClient.recorders (client s1) !! name)
  ∧ start_recording name s1
    = (Returns tt, s1,
       [Effect (Print ("⚠️ Recording already running for " +:+ name))]).
Proof.
  intros s1. subst s1.
  destruct (Go2RTCClient.recorders (client s) !! name) as [r|] eqn:Hr.
  - rewrite (start_recording_known name s r Hr). cbn [fst snd].
    split; [by rewrite Hr|]. by apply (start_recording_known name s r).
  - rewrite (start_recording_fresh name s Hr). cbn [fst snd].
    split.
    + cbn. rewrite lookup_insert_eq. by eexists.
    + eapply start_recording_known. cbn. apply lookup_insert_eq.
Qed.

Lemma stop_recording_known E name s r :
  Go2RTCClient.recorders (client s) !! name = Some r →
  stop_recording E name s
  = (match result_of (stop E) {| self := r; files := fs s |} with
     | Returns _ => Returns tt
     | Raised e => Raised e
     end,
     {| client :=
          Go2RTCClient.set_recorders
            (match result_of (stop E) {| self := r; files := fs s |} with
             | Returns _ => delete name (Go2RTCClient.recorders (client s))
             | Raised _ =>
                 <[name := self (world_of (stop E) {| self := r; files := fs s |})]>
                   (Go2RTCClient.recorders (client s))
             end) (client s);
        fs := files (world_of (stop E) {| self := r; files := fs s |}) |},
     Effect (Print ("🛑 Stopping recording for " +:+ name))
     :: (Effect <$> trace_of (stop E) {| self := r; files := fs s |})).
Proof.
  intros Hr. unfold stop_recording. run_c. rewrite Hr.
  unfold call, result_of, world_of, trace_of.
  destruct (stop E {| self := r; files := fs s |}) as [[[[]|e] w] t]; cbn.
  - unfold Go2RTCClient.set_recorders. cbn.
    by rewrite delete_insert_eq, app_nil_r.
  - done.
Qed.

Lemma stop_recording_unknown E name s :
  Go2RTCClient.recorders (client s) !! name = None →
  stop_recording E name s
  = (Returns tt, s, [Effect (Print ("⚠️ No recording found for " +:+ name))]).
Proof. intros Hr. unfold stop_recording. run_c. by rewrite Hr. Qed.

Lemma constructed_started name dir : constructed (started name dir).
Proof. done. Qed.





(** ** Requests *)

Lemma send_request_state N method endpoint params s :
  (_send_request N method endpoint params s).1.2 = s.
Proof.
  unfold _send_request, api_error. run_c.
  destruct (N method _) as [response|message|e]; [|done..].
  destruct (String.eqb _ ""); [done|].
  destruct (Requests.raise_for_status response); [done|].
  by destruct (Requests.json response).
Qed.

Lemma send_request_failed N method endpoint query s message :
  query ≠ [] →
  N method ((Go2RTCClient.base_url (client s) +:+ endpoint) +:+ "?"
              +:+ Urllib.urlencode query)
  = Requests.RequestException message →
  _send_request N method endpoint (Some query) s
  = (Returns (VDict []), s,
     [Request method ((Go2RTCClient.base_url (client s) +:+ endpoint) +:+ "?"
                        +:+ Urllib.urlencode query);
      Effect (Print ("❌ API error on " +:+ method +:+ " request to " +:+ endpoint
                       +:+ ": " +:+ message))]).
Proof.
  intros Hq HN. unfold _send_request, api_error.
  destruct query as [|kv query]; [done|].
  unfold mbind, C_bind, mret, C_ret, say, act, get_state.
  cbn -[Urllib.urlencode]. by rewrite HN.
Qed.

(** X17: a non-empty result of a request is the parsed body of a response:
    an unreachable server, an error status and a blank body all give the
    empty dict, which the callers cannot tell apart. *)
Theorem send_request_result (N : Net) (method endpoint : string)
    (params : option (list (string * string))) (s : state) (v : value) :
  (_send_request N method endpoint params s).1.1 = Returns v →
  truth v = true →
  ∃ url response,
    N method url = Requests.Responds response
    ∧ Requests.json response = Requests.Parsed v
    ∧ Py.strip (Requests.text response) ≠ ""
    ∧ ¬ (400 ≤ Requests.status_code response < 600)
    ∧ (_send_request N method endpoint params s).2 = [Request method url].
Proof.
  unfold _send_request, api_error. run_c.
  set (url := match params with Some ((_ :: _) as query) => _ | _ => _ end).
  intros Hres Hv.
  destruct (N method url) as [response|message|e] eqn:HN;
    [|cbn in Hres; simplify_eq; done..].
  destruct (String.eqb _ "") eqn:Hblank; [cbn in Hres; simplify_eq; done|].
  destruct (Requests.raise_for_status response) as [message|] eqn:Hst;
    [cbn in Hres; simplify_eq; done|].
  destruct (Requests.json response) as [v'|message|e] eqn:Hj;
    cbn in Hres; simplify_eq; try done.
  exists url, response. split; [done|]. split; [done|].
  split; [by apply String.eqb_neq|]. split; [|done].
  unfold Requests.raise_for_status in Hst.
  destruct (400 <=? Requests.status_code response) eqn:H4;
    destruct (Requests.status_code response <? 500) eqn:H5;
    destruct (500 <=? Requests.status_code response) eqn:H6;
    destruct (Requests.status_code response <? 600) eqn:H7;
    cbn in Hst; try done; lia.
Qed.

Lemma send_request_result_witness :
  ∃ url response,
    answering "{'cam': {}}" (VDict [("cam", VDict [])]) "GET" url
    = Requests.Responds response
    ∧ Requests.json response = Requests.Parsed (VDict [("cam", VDict [])])
    ∧ Py.strip (Requests.text response) ≠ ""
    ∧ ¬ (400 ≤ Requests.status_code response < 600)
    ∧ (list_streams (answering "{'cam': {}}" (VDict [("cam", VDict [])]))
         demo_client).2
      = [Request "GET" url].
Proof.
  apply (send_request_result (answering "{'cam': {}}" (VDict [("cam", VDict [])]))
           "GET" "/api/streams" None demo_client (VDict [("cam", VDict [])]));
    reflexivity.
Defined.

(** ** Streams *)

(** X18: [add_stream] starts the recording whatever the API answered: with a
    server that cannot be reached it returns the empty dict, and the
    recorder for the name is registered all the same, flagged as
    recording, with its thread started. *)
Theorem add_stream_records_anyway (N : Net) (name src message : string)
    (s : state) :
  N "PUT" (streams_url (client s) [("name", name); ("src", src)])
  = Requests.RequestException message →
  Go2RTCClient.recorders (client s) !! name = None →
  let out := add_stream N name src s in
  out.1.1 = Returns (VDict [])
  ∧ Go2RTCClient.recorders (client out.1.2) !! name
    = Some (started name (Go2RTCClient.output_dir (client s)))
  ∧ Effect ThreadStart ∈ out.2.
Proof.
  intros HN Hnew out.
  assert (Hout : out
            = (Returns (VDict []), (start_recording name s).1.2,
               (_send_request N "PUT" "/api/streams"
                  (Some [("name", name); ("src", src)]) s).2
               ++ (start_recording name s).2 ++ [])).
  { subst out. unfold add_stream. unfold mbind at 1, C_bind.
    rewrite (send_request_failed N "PUT" "/api/streams" _ s message); [|done|].
    - unfold mbind, C_bind.
      rewrite (start_recording_fresh name s Hnew). by cbn.
    - done. }
  rewrite Hout. cbn [fst snd]. rewrite (start_recording_fresh name s Hnew).
  cbn [fst snd client Go2RTCClient.recorders Go2RTCClient.set_recorders].
  split; [done|]. split; [apply lookup_insert_eq|].
  rewrite !elem_of_app, !elem_of_cons. tauto.
Qed.

Lemma add_stream_records_anyway_witness :
  let out := add_stream unreachable "cam" "ffmpeg:/dev/video0" demo_client in
  out.1.1 = Returns (VDict [])
  ∧ Go2RTCClient.recorders (client out.1.2) !! "cam"
    = Some (started "cam" (Go2RTCClient.output_dir (client demo_client)))
  ∧ Effect ThreadStart ∈ out.2.
Proof.
  apply (add_stream_records_anyway unreachable "cam" "ffmpeg:/dev/video0"
           "Connection refused" demo_client); reflexivity.
Defined.

Lemma delete_stream_unregistered N E src s :
  Go2RTCClient.recorders (client s) !! src = None →
  (delete_stream N E src s).1.2 = s.
Proof.
  intros Hsrc. unfold delete_stream. unfold mbind at 1, C_bind.
  pose proof (send_request_state N "DELETE" "/api/streams" (Some [("src", src)]) s)
    as Hst.
  destruct (_send_request N "DELETE" "/api/streams" _ s) as [[[v|e] s0] t0];
    cbn in Hst; subst s0; [|done].
  unfold mbind, C_bind. destruct (truth v).
  - by rewrite (stop_recording_unknown E src s Hsrc).
  - done.
Qed.

(** X19: [add_stream(name, src)] registers the recorder under the name,
    [delete_stream(src)] looks it up under the source: when the two
    differ, deleting the stream changes neither the registry nor a file,
    whatever the server answers, and the recording that [add_stream]
    started stays registered and flagged as recording. *)
Theorem delete_stream_misses_recorder (Na Nd : Net) (E : Env)
    (name src : string) (s s1 : state) (v : value) (t1 : list action) :
  name ≠ src →
  Go2RTCClient.recorders (client s) !! name = None →
  Go2RTCClient.recorders (client s) !! src = None →
  add_stream Na name src s = (Returns v, s1, t1) →
  (delete_stream Nd E src s1).1.2 = s1
  ∧ Go2RTCClient.recorders (client s1) !! name
    = Some (started name (Go2RTCClient.output_dir (client s))).
Proof.
  intros Hne Hname Hsrc Hadd.
  assert (Hs1 : s1 = (start_recording name s).1.2).
  { unfold add_stream in Hadd. unfold mbind at 1, C_bind in Hadd.
    pose proof (send_request_state Na "PUT" "/api/streams"
                  (Some [("name", name); ("src", src)]) s) as Hst.
    destruct (_send_request Na "PUT" "/api/streams" _ s) as [[[v0|e] s0] t0];
      cbn in Hst; subst s0; [|done].
    unfold mbind, C_bind in Hadd.
    destruct (start_recording name s) as [[[[]|e] s2] t2]; cbn in *; congruence. }
  rewrite (start_recording_fresh name s Hname) in Hs1. cbn [fst snd] in Hs1.
  subst s1. split.
  - apply delete_stream_unregistered. cbn. by rewrite lookup_insert_ne.
  - cbn. apply lookup_insert_eq.
Qed.

Lemma delete_stream_misses_recorder_witness :
  let s1 := (add_stream unreachable "cam" "ffmpeg:/dev/video0" demo_client).1.2 in
  (delete_stream (answering "deleted" (VBool true)) concatenating
     "ffmpeg:/dev/video0" s1).1.2 = s1
  ∧ Go2RTCClient.recorders (client s1) !! "cam"
    = Some (started "cam" (Go2RTCClient.output_dir (client demo_client))).
Proof.
  apply (delete_stream_misses_recorder unreachable
           (answering "deleted" (VBool true)) concatenating
           "cam" "ffmpeg:/dev/video0" demo_client _ (VDict [])
           (add_stream unreachable "cam" "ffmpeg:/dev/video0" demo_client).2).
  - discriminate.
  - reflexivity.
  - reflexivity.
  - reflexivity.
Defined.

(** X20: a [DELETE] that the server answers with a blank body, whatever the
    status, counts as done and yields the empty dict, which is false:
    [delete_stream] then stops no recording, also when one is registered
    under the name it was given. *)
Theorem delete_stream_blank_answer (N : Net) (E : Env) (src : string)
    (s : state) (response : Requests.Response) :
  N "DELETE" (streams_url (client s) [("src", src)]) = Requests.Responds response →
  Py.strip (Requests.text response) = "" →
  delete_stream N E src s
  = (Returns (VDict []), s,
     [Request "DELETE" (streams_url (client s) [("src", src)]);
      Effect (Print "✅ DELETE request to /api/streams completed successfully.")]).
Proof.
  intros HN Hblank. unfold delete_stream, _send_request, streams_url in *.
  unfold mbind, C_bind, mret, C_ret, say, act, get_state.
  cbn -[Urllib.urlencode]. rewrite HN, Hblank. done.
Qed.

Lemma delete_stream_blank_answer_witness :
  let s := (start_recording "cam" demo_client).1.2 in
  delete_stream (answering Py.nl VNone) concatenating "cam" s
  = (Returns (VDict []), s,
     [Request "DELETE" (streams_url (client s) [("src", "cam")]);
      Effect (Print "✅ DELETE request to /api/streams completed successfully.")]).
Proof.
  apply (delete_stream_blank_answer (answering Py.nl VNone) concatenating "cam"
           (start_recording "cam" demo_client).1.2
           {| Requests.text := Py.nl; Requests.status_code := 200;
              Requests.reason := "OK";
              Requests.url := "http://localhost:1984/api/streams?src=cam";
              Requests.json := Requests.Parsed VNone |});
    reflexivity.
Defined.

(** ** The registry *)

Lemma registered_insert s name r :
  registered s →
  config r
  = ("rtsp://localhost:8554/" +:+ name, Go2RTCClient.output_dir (client s),
     600, 1%N, 30,
     Py.path_join (Go2RTCClient.output_dir (client s)) "file_list.txt") →
  ∀ fs',
    registered
      {| client := Go2RTCClient.set_recorders
                     (<[name := r]> (Go2RTCClient.recorders (client s))) (client s);
         fs := fs' |}.
Proof.
  intros Hreg Hr fs'. unfold registered in *. cbn.
  by apply map_Forall_insert_2.
Qed.

Lemma registered_start_recording name s :
  registered s → registered (start_recording name s).1.2.
Proof.
  intros Hreg.
  destruct (Go2RTCClient.recorders (client s) !! name) as [r|] eqn:Hr.
  - by rewrite (start_recording_known name s r Hr).
  - rewrite (start_recording_fresh name s Hr). cbn [fst snd].
    by apply registered_insert.
Qed.

Lemma registered_stop_recording E name s :
  registered s → registered (stop_recording E name s).1.2.
Proof.
  intros Hreg.
  destruct (Go2RTCClient.recorders (client s) !! name) as [r|] eqn:Hr.
  - rewrite (stop_recording_known E name s r Hr). cbn [fst snd].
    destruct (result_of (stop E) _).
    + unfold registered in *. cbn. by apply map_Forall_delete.
    + apply registered_insert; [done|].
      rewrite <- (Hreg name r Hr).
      apply (settles_stop E {| self := r; files := fs s |}).
  - by rewrite (stop_recording_unknown E name s Hr).
Qed.

(** X21: every recorder of the registry records from
    [rtsp://localhost:8554/<its name>] into the one output directory of
    the client, with the default timing and the same manifest path: this
    holds for a new client and is kept by every method, whatever the
    server and the tools do. *)
Theorem registry_is_kept (N : Net) (E : Env) (name src : string) (s : state) :
  registered s →
  registered (start_recording name s).1.2
  ∧ registered (stop_recording E name s).1.2
  ∧ registered (add_stream N name src s).1.2
  ∧ registered (update_stream N name src s).1.2
  ∧ registered (delete_stream N E src s).1.2.
Proof.
  intros Hreg.
  split; [by apply registered_start_recording|].
  split; [by apply registered_stop_recording|].
  split; [|split].
  - unfold add_stream. unfold mbind at 1, C_bind.
    pose proof (send_request_state N "PUT" "/api/streams"
                  (Some [("name", name); ("src", src)]) s) as Hst.
    destruct (_send_request N "PUT" "/api/streams" _ s) as [[[v0|e] s0] t0];
      cbn in Hst; subst s0; [|done].
    unfold mbind, C_bind.
    pose proof (registered_start_recording name s Hreg) as H1.
    by destruct (start_recording name s) as [[[[]|e] s2] t2].
  - unfold update_stream. by rewrite send_request_state.
  - unfold delete_stream. unfold mbind at 1, C_bind.
    pose proof (send_request_state N "DELETE" "/api/streams"
                  (Some [("src", src)]) s) as Hst.
    destruct (_send_request N "DELETE" "/api/streams" _ s) as [[[v0|e] s0] t0];
      cbn in Hst; subst s0; [|done].
    unfold mbind, C_bind. destruct (truth v0); [|done].
    pose proof (registered_stop_recording E src s Hreg) as H1.
    by destruct (stop_recording E src s) as [[[[]|e] s2] t2].
Qed.

Lemma registry_is_kept_witness :
  let s := (start_recording "cam" demo_client).1.2 in
  let N := answering "deleted" (VBool true) in
  registered (start_recording "cam" s).1.2
  ∧ registered (stop_recording concatenating "cam" s).1.2
  ∧ registered (add_stream N "cam" "cam" s).1.2
  ∧ registered (update_stream N "cam" "cam" s).1.2
  ∧ registered (delete_stream N concatenating "cam" s).1.2.
Proof.
  apply (registry_is_kept (answering "deleted" (VBool true)) concatenating
           "cam" "cam" (start_recording "cam" demo_client).1.2).
  unfold registered. apply (bool_decide_unpack _). by vm_compute.
Defined.
